(** * JARR content generators (jarr/lib/content_generator.py)

    A shallow embedding of the strategy registry and of the content
    generation strategies, with the properties of the dispatch, of the
    strategies and of the memoisation of [get_content_generator]. *)

From Stdlib Require Import NArith Bool Ascii String Lia.
From stdpp Require Import gmap strings list.

Set Warnings "-register-all".

Open Scope N_scope.
Open Scope nat_scope.
Open Scope string_scope.
Open Scope list_scope.

(** ** Python values *)

(** A Python [str] is a sequence of code points. *)
Abbreviation pystr := (list N).

Definition str (s : string) : pystr :=
  (fun c => N.of_nat (nat_of_ascii c)) <$> list_ascii_of_string s.

(** [None] or a [str]: what the fields of an article, the groups of a match
    and the values of a generated content hold. *)
Inductive pyval :=
| PyNone
| PyStr (s : pystr).

#[global] Instance pyval_eq_dec : EqDecision pyval.
Proof. solve_decision. Defined.

(** Truth value of an optional string: [None] and [''] are false. *)
Definition truthy (v : pyval) : bool :=
  match v with
  | PyNone => false
  | PyStr [] => false
  | PyStr (_ :: _) => true
  end.

(** [a or b] *)
Definition py_or (a b : pyval) : pyval := if truthy a then a else b.

(** [a == b] between a [str] and an optional [str]. *)
Definition py_eq (a b : pyval) : bool := bool_decide (a = b).

(** Exceptions raised in the module; all of them derive from [Exception]. *)
Inductive exn :=
| TypeError
| AttributeError
| NameError
| IndexError
| HTTPError
| NetworkError.

#[global] Instance exn_eq_dec : EqDecision exn.
Proof. solve_decision. Defined.

Inductive outcome (A : Type) :=
| Return (a : A)
| Raise (e : exn).
Arguments Return {A} a.
Arguments Raise {A} e.

(** [except Exception] catches every exception of [exn]; [except IndexError]
    only the one. *)
Definition Exception (e : exn) : bool := true.
Definition only (e0 e : exn) : bool := bool_decide (e0 = e).

(** ** html.escape and slicing *)

Definition IMG_ALT_MAX_LENGTH : nat := 100.

(** [text[:n]] on a [str]; slicing [None] raises. *)
Definition slice_to (n : nat) (text : pyval) : outcome pystr :=
  match text with
  | PyNone => Raise TypeError
  | PyStr s => Return (take n s)
  end.

(** [html.escape(s)] with its default [quote=True]. *)
Definition escape_char (c : N) : pystr :=
  if (c =? 38)%N then str "&amp;"
  else if (c =? 60)%N then str "&lt;"
  else if (c =? 62)%N then str "&gt;"
  else if (c =? 34)%N then str "&quot;"
  else if (c =? 39)%N then str "&#x27;"
  else [c].

Definition html_escape (s : pystr) : pystr := flat_map escape_char s.

(** [s.split(', ')] *)
Fixpoint split_comma_space (s cur : pystr) : list pystr :=
  match s with
  | [] => [rev cur]
  | c :: t =>
      match t with
      | d :: t' =>
          if ((c =? 44)%N && (d =? 32)%N)%bool
          then rev cur :: split_comma_space t' []
          else split_comma_space t (c :: cur)
      | [] => [rev (c :: cur)]
      end
  end.

(** ** Regular expressions, as far as YOUTUBE_RE needs them

    Backtracking matching in the order of [re]: alternatives left to right,
    [?] and [+] greedy. *)

Inductive atom :=
| Lit (c : N)        (* the character itself *)
| AnyChar            (* [.]: anything but a newline *)
| Word               (* [\w] *)
| NonSpace.          (* [\S] *)

Inductive regex :=
| Eps                                  (* the empty pattern *)
| Bol                                  (* [^] *)
| Eol                                  (* [$] *)
| Chr (a : atom)
| OneOf (l : list atom)                (* a set [[...]] *)
| Cat (r1 r2 : regex)
| Alt (r1 r2 : regex)
| Opt (r : regex)                      (* [r?] *)
| Plus (r : regex)                     (* [r+] *)
| Group (n : nat) (r : regex).         (* the n-th capturing group *)

Definition between (lo hi c : N) : bool := ((lo <=? c)%N && (c <=? hi)%N)%bool.

(** [str.isspace] on one code point. *)
Definition is_space (c : N) : bool :=
  (between 9 13 c || between 28 32 c || (c =? 133)%N || (c =? 160)%N
   || (c =? 5760)%N || between 8192 8202 c || (c =? 8232)%N || (c =? 8233)%N
   || (c =? 8239)%N || (c =? 8287)%N || (c =? 12288)%N)%bool.

Section Regex.
(** [str.isalnum] outside ASCII comes from the Unicode database. *)
Variable unicode_isalnum : N -> bool.

Definition is_word (c : N) : bool :=
  if (c <? 128)%N
  then (between 48 57 c || between 65 90 c || between 97 122 c
        || (c =? 95)%N)%bool
  else unicode_isalnum c.

Definition atom_matches (a : atom) (c : N) : bool :=
  match a with
  | Lit c' => (c =? c')%N
  | AnyChar => negb (c =? 10)%N
  | Word => is_word c
  | NonSpace => negb (is_space c)
  end.

Record mstate := {
  pos : nat;                   (* characters consumed so far *)
  rest : pystr;                (* what is left of the subject *)
  groups : gmap nat pystr      (* the groups that took part so far *)
}.

Definition advance (st : mstate) (t : pystr) : mstate :=
  {| pos := S (pos st); rest := t; groups := groups st |}.

Definition orelse {A} (a b : option A) : option A :=
  match a with
  | Some x => Some x
  | None => b
  end.

(** The repetition of [r+]: once, then as often as the rest allows and
    as long as each round consumes something, the longest first. *)
Fixpoint iterate (body : mstate -> (mstate -> option mstate) -> option mstate)
    (k : mstate -> option mstate) (fuel : nat) (st0 : mstate)
    : option mstate :=
  body st0 (fun st' =>
    match fuel with
    | 0 => k st'
    | S fuel' =>
        if decide (pos st0 < pos st')
        then orelse (iterate body k fuel' st') (k st')
        else k st'
    end).

Fixpoint rmatch (r : regex) (st : mstate)
    (k : mstate -> option mstate) : option mstate :=
  match r with
  | Eps => k st
  | Bol => if decide (pos st = 0) then k st else None
  | Eol =>
      match rest st with
      | [] => k st
      | [c] => if (c =? 10)%N then k st else None
      | _ => None
      end
  | Chr a =>
      match rest st with
      | c :: t => if atom_matches a c then k (advance st t) else None
      | [] => None
      end
  | OneOf l =>
      match rest st with
      | c :: t =>
          if existsb (fun a => atom_matches a c) l
          then k (advance st t) else None
      | [] => None
      end
  | Cat r1 r2 => rmatch r1 st (fun st' => rmatch r2 st' k)
  | Alt r1 r2 => orelse (rmatch r1 st k) (rmatch r2 st k)
  | Opt r1 => orelse (rmatch r1 st k) (k st)
  | Plus r1 => iterate (rmatch r1) k (length (rest st)) st
  | Group n r1 =>
      rmatch r1 st (fun st' =>
        k {| pos := pos st';
             rest := rest st';
             groups := <[n := take (pos st' - pos st) (rest st)]>
                         (groups st') |})
  end.

(** [pattern.match(subject)]: the groups of the match, or nothing. *)
Definition re_match (r : regex) (subject : pystr) : option (gmap nat pystr) :=
  groups <$> rmatch r {| pos := 0; rest := subject; groups := ∅ |} Some.
End Regex.

Fixpoint lits (l : pystr) : regex :=
  match l with
  | [] => Eps
  | [c] => Chr (Lit c)
  | c :: t => Cat (Chr (Lit c)) (lits t)
  end.

Definition lit (s : string) : regex := lits (str s).

(** [YOUTUBE_RE]:
    [^((?:https?:)?\/\/)?((?:www|m)\.)?((?:youtube\.com|youtu.be))]
    [(\/(?:[\w\-]+\?v=|embed\/|v\/)?)([\w\-]+)(\S+)?$] *)
Definition word_or_dash : regex := OneOf [Word; Lit 45].

Definition YOUTUBE_RE : regex :=
  Cat Bol
  (Cat (Opt (Group 1 (Cat (Opt (Cat (lit "http")
                                (Cat (Opt (lit "s")) (lit ":"))))
                          (lit "//"))))
  (Cat (Opt (Group 2 (Cat (Alt (lit "www") (lit "m")) (lit "."))))
  (Cat (Group 3 (Alt (lit "youtube.com")
                     (Cat (lit "youtu") (Cat (Chr AnyChar) (lit "be")))))
  (Cat (Group 4 (Cat (lit "/")
                     (Opt (Alt (Cat (Plus word_or_dash) (lit "?v="))
                          (Alt (lit "embed/") (lit "v/"))))))
  (Cat (Group 5 (Plus word_or_dash))
  (Cat (Opt (Group 6 (Plus (Chr NonSpace))))
       Eol)))))).

Definition YOUTUBE_RE_groups : nat := 6.

(** [match.group(n)]: a group that did not take part is [None], a number
    beyond the groups of the pattern raises. *)
Definition group (m : gmap nat pystr) (n : nat) : outcome pyval :=
  if decide (n <= YOUTUBE_RE_groups)
  then Return (from_option PyStr PyNone (m !! n))
  else Raise IndexError.

(** ** Data model *)

Module ArticleType.
(** Modelled from the spec: the enumeration of jarr.lib.enums is not part
    of the sources; the spec gives it as {image, embedded, ...} and the
    discriminators written in the content as "image" and "embedded". *)
Inductive t :=
| image
| embedded
| other (value : string).

Definition value (x : t) : pystr :=
  match x with
  | image => str "image"
  | embedded => str "embedded"
  | other v => str v
  end.
End ArticleType.

Module FeedType.
(** Modelled from the spec: the enumeration of jarr.lib.enums is not part
    of the sources; the spec gives it as {reddit, ...}. *)
Inductive t :=
| reddit
| other (value : string).
End FeedType.

#[global] Instance ArticleType_eq_dec : EqDecision ArticleType.t.
Proof. solve_decision. Defined.
#[global] Instance FeedType_eq_dec : EqDecision FeedType.t.
Proof. solve_decision. Defined.

Record Feed := {
  feed_type : option FeedType.t;
  truncated_content : bool
}.

Record Article := {
  obj_id : nat;                          (* the identity of the object *)
  link : pystr;
  title : pyval;
  content : pyval;
  comments : pyval;
  article_type : option ArticleType.t;
  feed : Feed
}.

(** An lxml element: its serialisation by [etree.tostring(...).decode(...)]
    and what [getnext()] gives. *)
Inductive node :=
| Node (markup : outcome pystr) (next : option node).

(** The page goose hands back. *)
Record Page := {
  opengraph : gmap string pystr;
  meta_lang : pyval;
  final_url : pystr;
  meta_keywords : pystr;
  tags : list pystr;
  page_title : pystr;
  top_node : option node
}.

(** The values of [extracted_infos]. *)
Inductive info :=
| InfoVal (v : pyval)
| InfoTags (s : gset pystr).

(** The response of [requests.head]. *)
Record Response := {
  url : pystr;
  status_code : N
}.

Record Vector := { vector_of : pystr }.

(** What a run leaves behind, in order. [Classify] marks an evaluation of
    the property [is_pure_reddit_post]. *)
Inductive level := DEBUG | INFO | WARNING | ERROR.

Inductive event :=
| Log (l : level)
| GooseExtract (target : pystr)
| RequestsHead (target : pyval)
| Classify.

#[global] Instance level_eq_dec : EqDecision level.
Proof. solve_decision. Defined.
#[global] Instance event_eq_dec : EqDecision event.
Proof. solve_decision. Defined.

(** The collaborators of the module: the answers of the network may depend
    on everything that happened before. *)
Record World := {
  goose_extract : list event -> pystr -> outcome (option Page);
  requests_head : list event -> pyval -> outcome Response;
  (** Modelled from the spec: to_vector (jarr.controllers.article) is not
      part of the sources; the spec says it builds a feature vector from the
      extracted metadata of a fetched page. *)
  to_vector : gmap string info -> Page -> option Vector;
  unicode_isalnum : N -> bool
}.

(** ** The classes *)

Inductive class :=
| ContentGenerator
| ImageContentGenerator
| EmbeddedContentGenerator
| TruncatedContentGenerator
| RedditContentGenerator.

#[global] Instance class_eq_dec : EqDecision class.
Proof. solve_decision. Defined.

(** [cls.__subclasses__()], in the order of the definitions. *)
Definition subclasses (c : class) : list class :=
  match c with
  | ContentGenerator =>
      [ImageContentGenerator; EmbeddedContentGenerator;
       TruncatedContentGenerator]
  | TruncatedContentGenerator => [RedditContentGenerator]
  | _ => []
  end.

(** The class attributes, looked up along the bases. *)
Definition cls_article_type (c : class) : option ArticleType.t :=
  match c with
  | ImageContentGenerator => Some ArticleType.image
  | EmbeddedContentGenerator => Some ArticleType.embedded
  | _ => None
  end.

Definition cls_feed_type (c : class) : option FeedType.t :=
  match c with
  | RedditContentGenerator => Some FeedType.reddit
  | _ => None
  end.

(** An instance: [__init__] sets the three attributes. *)
Record Instance := {
  cls : class;
  article : Article;
  _page : option Page;
  extracted_infos : gmap string info
}.

Definition new (c : class) (a : Article) : Instance :=
  {| cls := c; article := a; _page := None; extracted_infos := ∅ |}.

(** ** Methods: state, trace and exceptions *)

Record State := {
  self : Instance;
  trace : list event
}.

(** A computation over a store [S]: what it returns or raises, and the
    store it leaves; the changes made before a raise stay. *)
Definition M (S A : Type) : Type := S -> outcome A * S.

Definition ret {S A} (a : A) : M S A := fun s => (Return a, s).
Definition raise {S A} (e : exn) : M S A := fun s => (Raise e, s).
Definition bind {S A B} (c : M S A) (k : A -> M S B) : M S B :=
  fun s =>
    match c s with
    | (Return a, s') => k a s'
    | (Raise e, s') => (Raise e, s')
    end.
Definition lift_outcome {S A} (o : outcome A) : M S A := fun s => (o, s).

Notation "'do' x <- c ; k" := (bind c (fun x => k))
  (at level 10, x name, c at level 100, k at level 200).

(** [try: body except E as error: handler] *)
Definition try_except {S A} (catches : exn -> bool) (body : M S A)
    (handler : exn -> M S A) : M S A :=
  fun s =>
    match body s with
    | (Return a, s') => (Return a, s')
    | (Raise e, s') => if catches e then handler e s' else (Raise e, s')
    end.

Definition get {S} : M S S := fun s => (Return s, s).
Definition put {S} (s : S) : M S unit := fun _ => (Return tt, s).

(** Local variables of a method, next to the state. *)
Definition with_locals {S L A} (l : L) (c : M (S * L) A) : M S A :=
  fun s => let '(o, (s', _)) := c (s, l) in (o, s').
Definition lift {S L A} (c : M S A) : M (S * L) A :=
  fun sl => let '(o, s') := c (fst sl) in (o, (s', snd sl)).
Definition locals {S L} : M (S * L) L := fun sl => (Return (snd sl), sl).
Definition set_locals {S L} (f : L -> L) : M (S * L) unit :=
  fun sl => (Return tt, (fst sl, f (snd sl))).

Definition get_self : M State Instance := fun s => (Return (self s), s).
Definition emit (e : event) : M State unit :=
  fun s => (Return tt, {| self := self s; trace := (trace s ++ [e])%list |}).
Definition logger (l : level) : M State unit := emit (Log l).

Definition set_page (p : option Page) : M State unit :=
  fun s =>
    (Return tt,
     {| self := {| cls := cls (self s); article := article (self s);
                   _page := p;
                   extracted_infos := extracted_infos (self s) |};
        trace := trace s |}).

Definition set_info (key : string) (v : info) : M State unit :=
  fun s =>
    (Return tt,
     {| self := {| cls := cls (self s); article := article (self s);
                   _page := _page (self s);
                   extracted_infos := <[key := v]> (extracted_infos (self s)) |};
        trace := trace s |}).

(** The names bound at the top level of the module, by its imports, its
    assignments and its definitions. *)
Definition module_globals : list string :=
  ["html"; "logging"; "re"; "lru_cache"; "Goose"; "etree"; "conf";
   "to_vector"; "ArticleType"; "FeedType"; "logger"; "IMG_ALT_MAX_LENGTH";
   "YOUTUBE_RE"; "is_embedded_link"; "ContentGenerator";
   "ImageContentGenerator"; "EmbeddedContentGenerator";
   "TruncatedContentGenerator"; "RedditContentGenerator";
   "CONTENT_GENERATORS"; "feed_mapping"; "subcls"; "subsubcls";
   "get_content_generator"].

(** Reading a global name that nothing binds raises. *)
Definition load_global {S} (name : string) : M S unit :=
  if bool_decide (name ∈ module_globals) then ret tt else raise NameError.

Abbreviation GeneratedContent := (gmap string pyval).

Section Methods.
Variable w : World.

(** [goose.extract(link)], asked of the world. *)
Definition extract (target : pystr) : M State (option Page) :=
  do _ <- emit (GooseExtract target);
  do s <- get;
  lift_outcome (goose_extract w (trace s) target).

Definition ContentGenerator__get_goose : M State bool :=
  do self <- get_self;
  do _ <- try_except Exception
            (do page <- extract (link (article self));
             set_page page)
            (fun error => logger ERROR);
  do self <- get_self;
  match _page self with
  | None => ret false
  | Some page =>
      let lang :=
        py_or (from_option PyStr PyNone (opengraph page !! "locale"))
              (meta_lang page) in
      do _ <- set_info "lang" (InfoVal lang);
      do _ <- set_info "link" (InfoVal (PyStr (final_url page)));
      let keywords : gset pystr :=
        list_to_set (split_comma_space (meta_keywords page) []) in
      do _ <- set_info "tags" (InfoTags (list_to_set (tags page) ∪ keywords));
      do _ <- set_info "title" (InfoVal (PyStr (page_title page)));
      ret true
  end.

Definition ContentGenerator_get_vector : M State (option Vector) :=
  do self <- get_self;
  do _ <- (if _page self is None
           then do _ <- ContentGenerator__get_goose; ret tt
           else ret tt);
  do self <- get_self;
  match _page self with
  | Some page =>
      if bool_decide (extracted_infos self ≠ ∅)
      then ret (to_vector w (extracted_infos self) page)
      else ret None
  | None => ret None
  end.

(** The loop of [_from_goose_to_html], from one node on. *)
Fixpoint serialize_from (current_node : node) (result : pystr)
    : outcome pystr :=
  match current_node with
  | Node markup next =>
      match markup with
      | Raise e => Raise e
      | Return s =>
          match next with
          | None => Return (result ++ s)%list
          | Some n => serialize_from n (result ++ s)%list
          end
      end
  end.

Definition ContentGenerator__from_goose_to_html : M State pystr :=
  do self <- get_self;
  match _page self with
  | None => raise AttributeError                 (* None.top_node *)
  | Some page =>
      match top_node page with
      | None => raise TypeError                  (* etree.tostring(None) *)
      | Some current_node => lift_outcome (serialize_from current_node [])
      end
  end.

Definition ContentGenerator_generate : M State (bool * GeneratedContent) :=
  ret (false, ∅).

(** [self.article.article_type.value] *)
Definition article_type_value : M State pyval :=
  do self <- get_self;
  match article_type (article self) with
  | None => raise AttributeError
  | Some t => ret (PyStr (ArticleType.value t))
  end.

Definition ImageContentGenerator_get_vector : M State (option Vector) :=
  ret None.

Definition ImageContentGenerator_generate
    : M State (bool * GeneratedContent) :=
  do _ <- logger INFO;
  do self <- get_self;
  let text := py_or (title (article self)) (content (article self)) in
  do type <- article_type_value;
  do alt <- lift_outcome (slice_to IMG_ALT_MAX_LENGTH text);
  let content : GeneratedContent :=
    <["src" := PyStr (link (article self))]>
      (<["alt" := PyStr (html_escape alt)]> {["type" := type]}) in
  ret (true, content).

Definition EmbeddedContentGenerator_get_vector : M State (option Vector) :=
  ret None.

Definition EmbeddedContentGenerator_generate
    : M State (bool * GeneratedContent) :=
  do self <- get_self;
  let yt_match :=
    re_match (unicode_isalnum w) YOUTUBE_RE (link (article self)) in
  do returned <-
    match yt_match with
    | Some m =>
        do _ <- logger INFO;
        try_except (only IndexError)
          (do type <- article_type_value;
           do videoId <- lift_outcome (group m 5);
           let content : GeneratedContent :=
             <["videoId" := videoId]>
               (<["player" := PyStr (str "youtube")]> {["type" := type]}) in
           ret (Some (true, content)))
          (fun _ => ret None)
    | None =>
        do _ <- logger WARNING;
        ret None
    end;
  match returned with
  | Some r => ret r
  | None => ret (true, ∅)
  end.

Definition TruncatedContentGenerator_generate
    : M State (bool * GeneratedContent) :=
  do self <- get_self;
  do _ <- (if _page self is None
           then do _ <- ContentGenerator__get_goose; ret tt
           else ret tt);
  with_locals (false, ({["type" := PyStr (str "fetched")]} : GeneratedContent))
    (do _ <- try_except Exception
               (do html <- lift ContentGenerator__from_goose_to_html;
                do _ <- set_locals (fun l => (l.1, <["content" := PyStr html]> l.2));
                do self <- lift get_self;
                do final <- match _page self with
                            | None => raise AttributeError
                            | Some page => ret (final_url page)
                            end;
                do _ <- set_locals (fun l => (l.1, <["link" := PyStr final]> l.2));
                set_locals (fun l => (true, l.2)))
               (fun _ => lift (logger ERROR));
     do l <- locals;
     do self <- lift get_self;
     do _ <- (if (l.1 && truthy (comments (article self)))%bool
              then set_locals
                     (fun l => (l.1, <["comments" := comments (article self)]> l.2))
              else ret tt);
     do _ <- lift (logger DEBUG);
     locals).

(** [head.raise_for_status()] *)
Definition raise_for_status (head : Response) : M State unit :=
  if ((400 <=? status_code head)%N && (status_code head <? 600)%N)%bool
  then raise HTTPError else ret tt.

(** [requests.head(url, allow_redirects=True, timeout=...)]: the name
    [requests] is looked up among the globals of the module first. *)
Definition head_request (target : pyval) : M State Response :=
  do _ <- load_global "requests";
  do _ <- emit (RequestsHead target);
  do s <- get;
  lift_outcome (requests_head w (trace s) target).

(** The property [is_pure_reddit_post]. *)
Definition RedditContentGenerator_is_pure_reddit_post : M State bool :=
  do _ <- emit Classify;
  do self <- get_self;
  if article_type (article self) is Some _ then ret false
  else if py_eq (PyStr (link (article self))) (comments (article self))
  then ret true
  else
    do head <- try_except Exception
                 (do head <- head_request (comments (article self));
                  do _ <- raise_for_status head;
                  ret (Some head))
                 (fun _ => ret None);
    match head with
    | None => ret false
    | Some head =>
        if py_eq (PyStr (link (article self))) (PyStr (url head))
        then ret true else ret false
    end.

Definition RedditContentGenerator_get_vector : M State (option Vector) :=
  do pure <- RedditContentGenerator_is_pure_reddit_post;
  if negb pure then ContentGenerator_get_vector else ret None.

Definition RedditContentGenerator_generate
    : M State (bool * GeneratedContent) :=
  do pure <- RedditContentGenerator_is_pure_reddit_post;
  if negb pure then TruncatedContentGenerator_generate else ret (false, ∅).

(** [self.generate()] and [self.get_vector()]: the method of the class of
    the instance, or of the nearest base that defines it. *)
Definition generate : M State (bool * GeneratedContent) :=
  do self <- get_self;
  match cls self with
  | ContentGenerator => ContentGenerator_generate
  | ImageContentGenerator => ImageContentGenerator_generate
  | EmbeddedContentGenerator => EmbeddedContentGenerator_generate
  | TruncatedContentGenerator => TruncatedContentGenerator_generate
  | RedditContentGenerator => RedditContentGenerator_generate
  end.

Definition get_vector : M State (option Vector) :=
  do self <- get_self;
  match cls self with
  | ContentGenerator => ContentGenerator_get_vector
  | ImageContentGenerator => ImageContentGenerator_get_vector
  | EmbeddedContentGenerator => EmbeddedContentGenerator_get_vector
  | TruncatedContentGenerator => ContentGenerator_get_vector
  | RedditContentGenerator => RedditContentGenerator_get_vector
  end.
End Methods.

(** ** The registry *)

(** The keys of [CONTENT_GENERATORS]: members of either enumeration. *)
Inductive type_key :=
| ArticleKey (t : ArticleType.t)
| FeedKey (t : FeedType.t).

#[global] Instance type_key_eq_dec : EqDecision type_key.
Proof. solve_decision. Defined.

(** A dict of classes, in insertion order. *)
Abbreviation registry := (list (type_key * class)).

Definition dict_get (k : type_key) (d : registry) : option class :=
  snd <$> List.find (fun kv => bool_decide (kv.1 = k)) d.

Definition dict_set (k : type_key) (v : class) (d : registry) : registry :=
  if dict_get k d is Some _
  then (fun kv => if bool_decide (kv.1 = k) then (k, v) else kv) <$> d
  else (d ++ [(k, v)])%list.

Definition feed_mapping (subcls_ : class) (d : registry) : registry :=
  let d := match cls_feed_type subcls_ with
           | Some t => dict_set (FeedKey t) subcls_ d
           | None => d
           end in
  match cls_article_type subcls_ with
  | Some t => dict_set (ArticleKey t) subcls_ d
  | None => d
  end.

(** The loop over the subclasses and their subclasses, run at import. *)
Definition CONTENT_GENERATORS : registry :=
  foldl (fun d subcls =>
           foldl (fun d subsubcls => feed_mapping subsubcls d)
                 (feed_mapping subcls d) (subclasses subcls))
        [] (subclasses ContentGenerator).

(** The body of [get_content_generator]. *)
Definition get_content_generator_body (article : Article) : Instance :=
  match article_type article ≫= (fun t => dict_get (ArticleKey t) CONTENT_GENERATORS) with
  | Some generator => new generator article
  | None =>
      match feed_type (feed article)
              ≫= (fun t => dict_get (FeedKey t) CONTENT_GENERATORS) with
      | Some generator => new generator article
      | None =>
          if truncated_content (feed article)
          then new TruncatedContentGenerator article
          else new ContentGenerator article
      end
  end.

(** ** functools.lru_cache *)

(** [lru_cache()] keeps its default [maxsize]. *)
Definition lru_maxsize : nat := 128.

(** The process: the instances created so far, an instance being known by
    its place in the heap, and the cache of [get_content_generator], most
    recently used first, from the identity of an article to an instance. *)
Record Process := {
  heap : list Instance;
  cache : list (nat * nat)
}.

Definition startup : Process := {| heap := []; cache := [] |}.

Definition cache_find (key : nat) (c : list (nat * nat)) : option nat :=
  snd <$> List.find (fun kv => bool_decide (kv.1 = key)) c.

Definition cache_remove (key : nat) (c : list (nat * nat)) : list (nat * nat) :=
  List.filter (fun kv => negb (bool_decide (kv.1 = key))) c.

(** A call of the decorated function: a hit moves the entry to the front;
    a miss runs the body and, when the cache is full, drops the entry used
    least recently. *)
Definition get_content_generator (article : Article) (p : Process)
    : nat * Process :=
  let key := obj_id article in
  match cache_find key (cache p) with
  | Some result =>
      (result,
       {| heap := heap p;
          cache := (key, result) :: cache_remove key (cache p) |})
  | None =>
      let result := length (heap p) in
      let kept := if decide (length (cache p) < lru_maxsize)
                  then cache p else removelast (cache p) in
      (result,
       {| heap := (heap p ++ [get_content_generator_body article])%list;
          cache := (key, result) :: kept |})
  end.

(** Calls in a row; the instances they return, in order. *)
Fixpoint lookups (articles : list Article) (p : Process)
    : list nat * Process :=
  match articles with
  | [] => ([], p)
  | a :: rest =>
      let '(r, p') := get_content_generator a p in
      let '(rs, p'') := lookups rest p' in
      (r :: rs, p'')
  end.

(** ** The resolution order, in the words of the specification *)

(** The strategies that declare a type, by the type they declare. *)
Definition registered_strategy (k : type_key) : option class :=
  match k with
  | ArticleKey ArticleType.image => Some ImageContentGenerator
  | ArticleKey ArticleType.embedded => Some EmbeddedContentGenerator
  | FeedKey FeedType.reddit => Some RedditContentGenerator
  | _ => None
  end.

(** First match wins: the type of the article when it is set and
    registered, else the type of the feed when it is set and registered,
    else the truncated-content strategy for a feed flagged so, else the
    base strategy. *)
Definition resolution_order (a : Article) : class :=
  match article_type a with
  | Some t =>
      match registered_strategy (ArticleKey t) with
      | Some c => c
      | None =>
          match feed_type (feed a) with
          | Some f =>
              match registered_strategy (FeedKey f) with
              | Some c => c
              | None => if truncated_content (feed a)
                        then TruncatedContentGenerator else ContentGenerator
              end
          | None => if truncated_content (feed a)
                    then TruncatedContentGenerator else ContentGenerator
          end
      end
  | None =>
      match feed_type (feed a) with
      | Some f =>
          match registered_strategy (FeedKey f) with
          | Some c => c
          | None => if truncated_content (feed a)
                    then TruncatedContentGenerator else ContentGenerator
          end
      | None => if truncated_content (feed a)
                then TruncatedContentGenerator else ContentGenerator
      end
  end.

(** What [is_pure_reddit_post] amounts to with the module as it is. *)
Definition link_is_comments (a : Article) : bool :=
  (bool_decide (article_type a = None)
   && py_eq (PyStr (link a)) (comments a))%bool.

Definition classified (st : State) : State :=
  {| self := self st; trace := (trace st ++ [Classify])%list |}.

(** The state [generate] and [get_vector] go on with once the page has been
    asked for, if it was not there. *)
Definition fetched (w : World) (st : State) : State :=
  if _page (self st) is None
  then snd (ContentGenerator__get_goose w st) else st.

(** The page and its markup, when there is a page and it serialises. *)
Definition rebuilt (st : State) : option (Page * pystr) :=
  match _page (self st) with
  | Some page =>
      match top_node page with
      | Some n =>
          match serialize_from n [] with
          | Return html => Some (page, html)
          | Raise _ => None
          end
      | None => None
      end
  | None => None
  end.

(** [st'] is a later state of the instance of [st]: same class, same
    article, and no classification in between. *)
Definition same_instance (st st' : State) : Prop :=
  cls (self st') = cls (self st)
  /\ article (self st') = article (self st)
  /\ exists evs, trace st' = (trace st ++ evs)%list /\ Classify ∉ evs.

(** Whether the n-th group lies on every path through the pattern. *)
Fixpoint on_every_path (n : nat) (r : regex) : bool :=
  match r with
  | Group m r1 => bool_decide (n = m) || on_every_path n r1
  | Cat r1 r2 => on_every_path n r1 || on_every_path n r2
  | Alt r1 r2 => on_every_path n r1 && on_every_path n r2
  | _ => false
  end.

(** How often the property [is_pure_reddit_post] was evaluated. *)
Definition classifications (st : State) : nat :=
  length (List.filter (fun e => bool_decide (e = Classify)) (trace st)).

(** A call of either method: the class and the article stay, and the
    property is evaluated once by a reddit instance, never by another. *)
Definition one_call (st st' : State) : Prop :=
  cls (self st') = cls (self st)
  /\ article (self st') = article (self st)
  /\ classifications st'
     = classifications st
       + (if decide (cls (self st) = RedditContentGenerator) then 1 else 0).

(** The cache holds [key] for the instance [addr], with only keys of [seen]
    used more recently, no key twice and no more entries than fit. *)
Definition cached_behind (key addr : nat) (seen : list nat) (p : Process)
    : Prop :=
  exists pre post,
    cache p = (pre ++ (key, addr) :: post)%list
    /\ NoDup (cache p).*1
    /\ (forall k, k ∈ pre.*1 -> k ∈ seen)
    /\ length (cache p) <= lru_maxsize.

(** The calls to goose and the HEAD requests a run has made so far. *)
Definition is_fetch (e : event) : bool :=
  match e with
  | GooseExtract _ => true
  | _ => false
  end.

Definition is_request (e : event) : bool :=
  match e with
  | RequestsHead _ => true
  | _ => false
  end.

Definition fetches (st : State) : nat :=
  length (List.filter is_fetch (trace st)).

Definition requests (st : State) : nat :=
  length (List.filter is_request (trace st)).

(** [st'] comes after [st] with [n] more calls to goose, no HEAD request,
    and the page of [st], if it had one, still there. *)
Definition after_fetching (n : nat) (st st' : State) : Prop :=
  fetches st' = fetches st + n
  /\ requests st' = requests st
  /\ (forall page, _page (self st) = Some page -> _page (self st') = Some page).

(** Whether a call of [generate], or of [get_vector], has to ask for the
    page. *)
Definition generate_needs_page (st : State) : bool :=
  match cls (self st) with
  | TruncatedContentGenerator => bool_decide (_page (self st) = None)
  | RedditContentGenerator =>
      negb (link_is_comments (article (self st)))
      && bool_decide (_page (self st) = None)
  | _ => false
  end.

Definition get_vector_needs_page (st : State) : bool :=
  match cls (self st) with
  | ContentGenerator | TruncatedContentGenerator =>
      bool_decide (_page (self st) = None)
  | RedditContentGenerator =>
      negb (link_is_comments (article (self st)))
      && bool_decide (_page (self st) = None)
  | _ => false
  end.

(** The two public methods, and calls of them in a row on one instance. *)
Inductive call := Generate | GetVector.

Definition run_call (w : World) (c : call) (st : State) : State :=
  match c with
  | Generate => snd (generate w st)
  | GetVector => snd (get_vector w st)
  end.

Definition run_calls (w : World) (calls : list call) (st : State) : State :=
  foldl (fun st c => run_call w c st) st calls.

(** [', '.join(pieces)] *)
Fixpoint join_comma_space (pieces : list pystr) : pystr :=
  match pieces with
  | [] => []
  | piece :: rest =>
      match rest with
      | [] => piece
      | _ :: _ => piece ++ [44%N; 32%N] ++ join_comma_space rest
      end
  end.

(** A node and the siblings after it, as [getnext()] walks them, each with
    its serialisation. *)
Fixpoint siblings (n : node) : list (outcome pystr) :=
  match n with
  | Node markup next =>
      markup :: match next with
                | Some n' => siblings n'
                | None => []
                end
  end.

(** The characters [html.escape] replaces but the ampersand. *)
Definition markup_free (c : N) : Prop :=
  c <> 60%N /\ c <> 62%N /\ c <> 34%N /\ c <> 39%N.

(** Every entry of the cache leads to the instance built for an article of
    [known] with that identity, no key is there twice, and the entries are
    no more than fit. *)
Definition cache_serves (known : list Article) (p : Process) : Prop :=
  (forall k r, (k, r) ∈ cache p ->
     exists a, a ∈ known /\ obj_id a = k
               /\ heap p !! r = Some (get_content_generator_body a))
  /\ NoDup (cache p).*1
  /\ length (cache p) <= lru_maxsize.

(** The cache holds exactly the identities of [seen], each once, and one
    instance was built per entry. *)
Definition cache_holds (seen : list nat) (p : Process) : Prop :=
  NoDup (cache p).*1
  /\ (forall k, k ∈ (cache p).*1 <-> k ∈ seen)
  /\ length (heap p) = length (cache p).

(** [is_embedded_link(link)]: the match, or nothing. *)
Definition is_embedded_link (u : N -> bool) (link : pystr)
    : option (gmap nat pystr) :=
  re_match u YOUTUBE_RE link.

(** The characters of [[\w\-]]. *)
Definition video_id_char (u : N -> bool) (c : N) : bool :=
  existsb (fun a => atom_matches u a c) [Word; Lit 45].

(** The groups a pattern can capture. *)
Fixpoint captures (r : regex) : list nat :=
  match r with
  | Group n r1 => n :: captures r1
  | Cat r1 r2 | Alt r1 r2 => captures r1 ++ captures r2
  | Opt r1 | Plus r1 => captures r1
  | _ => []
  end.

(** A state of the matcher further on: [w] consumed, [t] left. *)
Definition skip (st : mstate) (w t : pystr) : mstate :=
  {| pos := pos st + length w; rest := t; groups := groups st |}.

(** Membership in a set [[...]] of the pattern, and a rest at which a run
    of characters of the set ends. *)
Definition in_set (u : N -> bool) (l : list atom) (c : N) : bool :=
  existsb (fun a => atom_matches u a c) l.

Definition stops (u : N -> bool) (l : list atom) (t : pystr) : Prop :=
  match t with
  | [] => True
  | c :: _ => in_set u l c = false
  end.

(** What comes before the video id in the usual links to a video. *)
Definition video_link_prefixes : list pystr :=
  [str "https://www.youtube.com/watch?v=";
   str "https://www.youtube.com/embed/";
   str "https://youtu.be/"].

(** What goose answers when it is asked for the page of the instance now. *)
Definition goose_answer (w : World) (st : State) : outcome (option Page) :=
  goose_extract w
    (trace st ++ [GooseExtract (link (article (self st)))])
    (link (article (self st))).

(** The page [generate] and [get_vector] work on: the one the instance has,
    or else the one goose answers with, if it answers with one. *)
Definition page_after (w : World) (st : State) : option Page :=
  match _page (self st) with
  | Some page => Some page
  | None =>
      match goose_answer w st with
      | Return (Some page) => Some page
      | _ => None
      end
  end.

(** The serialisations of a row of nodes, when every one of them is there. *)
Fixpoint all_returned (l : list (outcome pystr)) : option (list pystr) :=
  match l with
  | [] => Some []
  | Return s :: l' => (fun ss => s :: ss) <$> all_returned l'
  | Raise _ :: _ => None
  end.

(** The markup of a page: the serialisations of its top node and of the
    siblings after it, one after the other; none without a top node or when
    one of them does not serialise. *)
Definition markup_of (page : Page) : option pystr :=
  match top_node page with
  | Some n => (fun markups => concat markups) <$> all_returned (siblings n)
  | None => None
  end.

(** What [_get_goose] notes of a page, over the infos there were. *)
Definition page_infos (page : Page) (infos : gmap string info)
    : gmap string info :=
  <["title" := InfoVal (PyStr (page_title page))]>
    (<["tags" := InfoTags (list_to_set (tags page)
                           ∪ list_to_set
                               (split_comma_space (meta_keywords page) []))]>
       (<["link" := InfoVal (PyStr (final_url page))]>
          (<["lang" := InfoVal
                         (py_or (from_option PyStr PyNone
                                   (opengraph page !! "locale"))
                                (meta_lang page))]> infos))).



(** ** Sample articles and worlds *)

Definition plain_feed : Feed :=
  {| feed_type := None; truncated_content := false |}.
Definition reddit_feed : Feed :=
  {| feed_type := Some FeedType.reddit; truncated_content := false |}.

(** A world without network, and one in which the comments page of
    [crosspost] redirects to the link of [crosspost]. *)
Definition offline : World :=
  {| goose_extract := fun _ _ => Raise NetworkError;
     requests_head := fun _ _ => Raise NetworkError;
     to_vector := fun _ _ => None;
     unicode_isalnum := fun _ => false |}.

Definition redirecting : World :=
  {| goose_extract := fun _ _ => Raise NetworkError;
     requests_head := fun _ _ =>
       Return {| url := str "https://example.com/story";
                 status_code := 200 |};
     to_vector := fun _ _ => None;
     unicode_isalnum := fun _ => false |}.

Definition crosspost : Article :=
  {| obj_id := 1;
     link := str "https://example.com/story";
     title := PyStr (str "A story");
     content := PyNone;
     comments := PyStr (str "https://www.reddit.com/r/news/comments/abc");
     article_type := None;
     feed := reddit_feed |}.

(** An image article that has neither a title nor a body. *)
Definition untitled_image : Article :=
  {| obj_id := 2;
     link := str "https://example.com/cat.png";
     title := PyNone;
     content := PyNone;
     comments := PyNone;
     article_type := Some ArticleType.image;
     feed := plain_feed |}.

Definition video : Article :=
  {| obj_id := 3;
     link := str "https://www.youtube.com/watch?v=dQw4w9WgXcQ";
     title := PyStr (str "A video");
     content := PyNone;
     comments := PyNone;
     article_type := Some ArticleType.embedded;
     feed := plain_feed |}.


(** A world in which every page is there: two sibling elements, and a
    final URL after redirection. *)
Definition story_page : Page :=
  {| opengraph := {["locale" := str "en_GB"]};
     meta_lang := PyStr (str "en");
     final_url := str "https://example.com/story/full";
     meta_keywords := str "news, cats";
     tags := [str "cats"];
     page_title := str "A story";
     top_node :=
       Some (Node (Return (str "<p>one</p>"))
                  (Some (Node (Return (str "<p>two</p>")) None))) |}.

Definition online : World :=
  {| goose_extract := fun _ _ => Return (Some story_page);
     requests_head := fun _ _ => Raise NetworkError;
     to_vector := fun _ _ => Some {| vector_of := str "story" |};
     unicode_isalnum := fun _ => false |}.

(** An article of a feed flagged truncated, with comments. *)
Definition teaser : Article :=
  {| obj_id := 4;
     link := str "https://example.com/story";
     title := PyStr (str "A story");
     content := PyStr (str "One...");
     comments := PyStr (str "https://example.com/story#comments");
     article_type := None;
     feed := {| feed_type := None; truncated_content := true |} |}.

Definition drawing : Article :=
  {| obj_id := 5;
     link := str "https://example.com/tom.png";
     title := PyStr (str "Tom & <Jerry>");
     content := PyNone;
     comments := PyNone;
     article_type := Some ArticleType.image;
     feed := reddit_feed |}.

Definition fresh (a : Article) : State :=
  {| self := get_content_generator_body a; trace := [] |}.

(** * Properties *)

(** ** The registry *)

Lemma CONTENT_GENERATORS_eq :
  CONTENT_GENERATORS =
    [(ArticleKey ArticleType.image, ImageContentGenerator);
     (ArticleKey ArticleType.embedded, EmbeddedContentGenerator);
     (FeedKey FeedType.reddit, RedditContentGenerator)].
Proof. reflexivity. Qed.

Lemma dict_get_registered (k : type_key) :
  dict_get k CONTENT_GENERATORS = registered_strategy k.
Proof.
  rewrite CONTENT_GENERATORS_eq.
  destruct k as [[| |v]|[|v]]; reflexivity.
Qed.

Lemma get_content_generator_body_new (a : Article) :
  get_content_generator_body a = new (resolution_order a) a.
Proof.
  unfold get_content_generator_body, resolution_order.
  destruct (article_type a) as [t|]; cbn [mbind option_bind];
    [rewrite dict_get_registered;
     destruct (registered_strategy (ArticleKey t)); [reflexivity|] |];
    (destruct (feed_type (feed a)) as [f|]; cbn [mbind option_bind];
     [rewrite dict_get_registered;
      destruct (registered_strategy (FeedKey f)); [reflexivity|] |];
     destruct (truncated_content (feed a)); reflexivity).
Qed.

(** C1: the strategy of an article is the first of: the strategy registered
    for its article type, the strategy registered for the type of its feed,
    the truncated-content strategy when the feed is flagged truncated, the
    base strategy; an image article of a reddit feed gets the image
    strategy. *)
Theorem get_content_generator_resolution_order :
  (forall a : Article,
     get_content_generator_body a = new (resolution_order a) a
     /\ fst (get_content_generator a startup) = 0
     /\ heap (snd (get_content_generator a startup))
        = [new (resolution_order a) a])
  /\ (forall i l t c co tc,
        cls (get_content_generator_body
               {| obj_id := i; link := l; title := t; content := c;
                  comments := co; article_type := Some ArticleType.image;
                  feed := {| feed_type := Some FeedType.reddit;
                             truncated_content := tc |} |})
        = ImageContentGenerator).
Proof.
  split.
  - intros a. split; [apply get_content_generator_body_new|].
    split; [reflexivity|].
    cbn. by rewrite get_content_generator_body_new.
  - intros. by rewrite get_content_generator_body_new.
Qed.

(** ** The reddit classification *)

Lemma head_request_unbound (w : World) (target : pyval) (st : State) :
  head_request w target st = (Raise NameError, st).
Proof. reflexivity. Qed.

Lemma is_pure_reddit_post_eq (w : World) (st : State) :
  RedditContentGenerator_is_pure_reddit_post w st
  = (Return (link_is_comments (article (self st))), classified st).
Proof.
  unfold RedditContentGenerator_is_pure_reddit_post, link_is_comments.
  unfold bind, emit, get_self, try_except; cbn.
  destruct (article_type (article (self st))); cbn; [reflexivity|].
  destruct (py_eq _ _); reflexivity.
Qed.

(** C10: [requests] is not bound in the module, so the HEAD request raises
    NameError before anything is sent, the handler swallows it, and the
    property is true exactly when the article has no type and its link is
    its comments URI. *)
Theorem is_pure_reddit_post_link_is_comments (w : World) (st : State) :
  ("requests" ∉ module_globals)
  /\ (forall target, head_request w target st = (Raise NameError, st))
  /\ RedditContentGenerator_is_pure_reddit_post w st
     = (Return (link_is_comments (article (self st))), classified st)
  /\ (fst (RedditContentGenerator_is_pure_reddit_post w st) = Return true
      <-> article_type (article (self st)) = None
          /\ PyStr (link (article (self st))) = comments (article (self st))).
Proof.
  split; [by apply (bool_decide_unpack _)|].
  split; [intros; apply head_request_unbound|].
  split; [apply is_pure_reddit_post_eq|].
  rewrite is_pure_reddit_post_eq. cbn. unfold link_is_comments, py_eq.
  split.
  - intros [= H]. apply andb_prop in H as [H1 H2].
    by apply bool_decide_eq_true in H1, H2.
  - intros [H1 H2]. f_equal. apply andb_true_intro.
    split; by apply bool_decide_eq_true.
Qed.

(** C3, at the article [crosspost] in the world [redirecting]: a HEAD
    request on the comments URI would resolve to the link, and the property
    is false without any request being sent. *)
Theorem is_pure_reddit_post_crosspost :
  article_type crosspost = None
  /\ (forall history,
        requests_head redirecting history (comments crosspost)
        = Return {| url := link crosspost; status_code := 200 |})
  /\ cls (get_content_generator_body crosspost) = RedditContentGenerator
  /\ RedditContentGenerator_is_pure_reddit_post redirecting (fresh crosspost)
     = (Return false, classified (fresh crosspost))
  /\ trace (classified (fresh crosspost)) = [Classify].
Proof. repeat split; reflexivity. Qed.

(** C7: a reddit instance whose article is classified as a pure post
    generates (False, {}) and has no vector; otherwise both methods go on as
    those of the truncated-content strategy. *)
Theorem reddit_generate_get_vector (w : World) (st : State) :
  exists pure : bool,
    RedditContentGenerator_is_pure_reddit_post w st
    = (Return pure, classified st)
    /\ if pure
       then RedditContentGenerator_generate w st
            = (Return (false, ∅), classified st)
            /\ RedditContentGenerator_get_vector w st
               = (Return None, classified st)
       else RedditContentGenerator_generate w st
            = TruncatedContentGenerator_generate w (classified st)
            /\ RedditContentGenerator_get_vector w st
               = ContentGenerator_get_vector w (classified st).
Proof.
  exists (link_is_comments (article (self st))).
  split; [apply is_pure_reddit_post_eq|].
  unfold RedditContentGenerator_generate, RedditContentGenerator_get_vector.
  unfold bind. rewrite is_pure_reddit_post_eq.
  by destruct (link_is_comments _).
Qed.

(** ** Fetching the page *)

Ltac no_classify :=
  let H := fresh in
  intros H;
  repeat (apply elem_of_cons in H as [H|H]; [discriminate H|]);
  by apply elem_of_nil in H.

Ltac run :=
  unfold bind, try_except, with_locals, lift, locals, set_locals, get_self,
    extract, emit, get, put, lift_outcome, set_page, set_info, logger, emit,
    ret, raise; cbn.

Lemma get_goose_returns (w : World) (st : State) :
  exists b, ContentGenerator__get_goose w st
            = (Return b, snd (ContentGenerator__get_goose w st)).
Proof.
  unfold ContentGenerator__get_goose. run.
  destruct (goose_extract w _ _) as [[page|]|e]; cbn;
    [by eexists | by eexists |].
  destruct (_page (self st)); by eexists.
Qed.

(** Both [generate] of the truncated strategy and [get_vector] start by
    asking for the page when there is none. *)
Lemma lazy_fetch (w : World) (st : State) {A} (k : M State A) :
  (do self <- get_self;
   do _ <- (if _page self is None
            then do _ <- ContentGenerator__get_goose w; ret tt
            else ret tt);
   k) st = k (fetched w st).
Proof.
  unfold fetched, bind at 1 2, get_self.
  destruct (_page (self st)); [reflexivity|].
  unfold bind. destruct (get_goose_returns w st) as [b ->]. reflexivity.
Qed.

(** ** The truncated-content strategy *)

Lemma truncated_generate_eq (w : World) (st : State) :
  fst (TruncatedContentGenerator_generate w st)
  = match rebuilt (fetched w st) with
    | Some (page, html) =>
        let content : GeneratedContent :=
          <["link" := PyStr (final_url page)]>
            (<["content" := PyStr html]>
               {["type" := PyStr (str "fetched")]}) in
        Return (true,
                if truthy (comments (article (self (fetched w st))))
                then <["comments" := comments (article (self (fetched w st)))]>
                       content
                else content)
    | None => Return (false, {["type" := PyStr (str "fetched")]})
    end.
Proof.
  unfold TruncatedContentGenerator_generate. rewrite lazy_fetch.
  generalize (fetched w st) as st1. intros st1.
  unfold rebuilt, ContentGenerator__from_goose_to_html. run.
  destruct (_page (self st1)) as [page|] eqn:Hp; cbn; [|reflexivity].
  destruct (top_node page) as [n|]; cbn; [|reflexivity].
  destruct (serialize_from n []) as [html|e]; cbn; [|reflexivity].
  rewrite Hp; cbn.
  by destruct (truthy (comments (article (self st1)))).
Qed.

Lemma same_instance_refl (st : State) : same_instance st st.
Proof.
  repeat split. exists []. split; [by rewrite app_nil_r | apply not_elem_of_nil].
Qed.

Lemma same_instance_trans (st1 st2 st3 : State) :
  same_instance st1 st2 -> same_instance st2 st3 -> same_instance st1 st3.
Proof.
  intros (Hc & Ha & evs & Ht & Hn) (Hc' & Ha' & evs' & Ht' & Hn').
  repeat split; [congruence | congruence |].
  exists (evs ++ evs')%list. split.
  - by rewrite Ht', Ht, app_assoc.
  - rewrite elem_of_app. tauto.
Qed.

Lemma get_goose_same_instance (w : World) (st : State) :
  same_instance st (snd (ContentGenerator__get_goose w st)).
Proof.
  unfold ContentGenerator__get_goose. run.
  destruct (goose_extract w _ _) as [[page|]|e]; cbn.
  - repeat split. eexists. split; [reflexivity | no_classify].
  - repeat split. eexists. split; [reflexivity | no_classify].
  - destruct (_page (self st)); cbn; repeat split;
      (exists [GooseExtract (link (article (self st))); Log ERROR];
       split; [by rewrite <- app_assoc | no_classify]).
Qed.

Lemma fetched_same_instance (w : World) (st : State) :
  same_instance st (fetched w st).
Proof.
  unfold fetched. destruct (_page (self st)).
  - apply same_instance_refl.
  - apply get_goose_same_instance.
Qed.

Lemma fetched_page (w : World) (st : State) :
  _page (self (fetched w st)) = page_after w st.
Proof.
  unfold fetched, page_after, goose_answer.
  destruct (_page (self st)) as [page|] eqn:Hp; [done|].
  unfold ContentGenerator__get_goose. run.
  destruct (goose_extract w _ _) as [[page|]|e]; cbn; [done | done |].
  rewrite Hp. cbn. by rewrite Hp.
Qed.

Lemma serialize_from_all_returned (k : nat) :
  forall (n : node) (result : pystr),
    length (siblings n) <= k ->
    match all_returned (siblings n) with
    | Some markups => serialize_from n result = Return (result ++ concat markups)
    | None => exists e, serialize_from n result = Raise e
    end.
Proof.
  induction k as [|k IH]; intros [markup next] result Hk; cbn in Hk; [lia|].
  cbn [siblings all_returned serialize_from].
  destruct markup as [s|e]; [|by eexists].
  destruct next as [n'|].
  - specialize (IH n' (result ++ s)). 
    destruct (all_returned (siblings n')) as [markups|]; cbn.
    + rewrite IH by lia. by rewrite <- app_assoc.
    + apply IH. lia.
  - cbn. by rewrite app_nil_r.
Qed.

Lemma rebuilt_markup_of (st : State) :
  rebuilt st
  = match _page (self st) with
    | Some page => (fun html => (page, html)) <$> markup_of page
    | None => None
    end.
Proof.
  unfold rebuilt, markup_of.
  destruct (_page (self st)) as [page|]; [|done].
  destruct (top_node page) as [n|]; [|done].
  pose proof (serialize_from_all_returned _ n [] (le_n _)) as H.
  destruct (all_returned (siblings n)) as [markups|]; cbn.
  - by rewrite H.
  - by destruct H as [e ->].
Qed.

(** C4: when goose hands back a page, or the instance has one, and the
    top node of the page and all its later siblings serialise, [generate]
    of the truncated-content strategy succeeds with a content of type
    "fetched", that markup, the final URL of the page as link, and the
    comments of the article exactly when they are truthy; when goose raises
    or hands back nothing, when the page has no top node, or when a node
    does not serialise, it returns (False, {'type': 'fetched'}). *)
Theorem truncated_generate_outcome (w : World) (st : State) :
  match page_after w st with
  | Some page =>
      match markup_of page with
      | Some html =>
          exists content : GeneratedContent,
            fst (TruncatedContentGenerator_generate w st)
            = Return (true, content)
            /\ content !! "type" = Some (PyStr (str "fetched"))
            /\ content !! "content" = Some (PyStr html)
            /\ content !! "link" = Some (PyStr (final_url page))
            /\ (if truthy (comments (article (self st)))
                then content !! "comments" = Some (comments (article (self st)))
                else content !! "comments" = None)
      | None =>
          fst (TruncatedContentGenerator_generate w st)
          = Return (false, {["type" := PyStr (str "fetched")]})
      end
  | None =>
      fst (TruncatedContentGenerator_generate w st)
      = Return (false, {["type" := PyStr (str "fetched")]})
  end.
Proof.
  rewrite truncated_generate_eq, rebuilt_markup_of, fetched_page.
  destruct (fetched_same_instance w st) as (_ & -> & _).
  destruct (page_after w st) as [page|]; [|reflexivity].
  destruct (markup_of page) as [html|]; [|reflexivity]. cbn.
  eexists. split; [reflexivity|].
  destruct (truthy (comments (article (self st)))); repeat split;
    by simplify_map_eq.
Qed.

(** ** The image strategy *)

Lemma image_generate_eq (st : State) (t : ArticleType.t)
    (text : pystr) :
  article_type (article (self st)) = Some t ->
  py_or (title (article (self st))) (content (article (self st))) = PyStr text ->
  ImageContentGenerator_generate st
  = (Return (true,
             <["src" := PyStr (link (article (self st)))]>
               (<["alt" := PyStr (html_escape (take 100 text))]>
                  {["type" := PyStr (ArticleType.value t)]})),
     {| self := self st; trace := (trace st ++ [Log INFO])%list |}).
Proof.
  intros Ht Htext.
  unfold ImageContentGenerator_generate, article_type_value. run.
  rewrite Ht, Htext. reflexivity.
Qed.

(** C5, at the article [untitled_image]: it has the image type and neither
    a title nor a body, and [generate] of the image strategy raises where
    it slices the text. *)
Theorem image_generate_untitled :
  article_type untitled_image = Some ArticleType.image
  /\ py_or (title untitled_image) (content untitled_image) = PyNone
  /\ ImageContentGenerator_generate (fresh untitled_image)
     = (Raise TypeError,
        {| self := new ImageContentGenerator untitled_image;
           trace := [Log INFO] |}).
Proof. repeat split; reflexivity. Qed.

(** C2, at the article [untitled_image]: the registry gives it the image
    strategy, and the TypeError of the slice leaves [generate]. *)
Theorem generate_raises_untitled (w : World) :
  cls (self (fresh untitled_image)) = ImageContentGenerator
  /\ fst (generate w (fresh untitled_image)) = Raise TypeError.
Proof. split; reflexivity. Qed.

(** ** The embedded strategy *)

(** ** Matches of YOUTUBE_RE *)

Section Matching.
Variable u : N -> bool.
Variable P : gmap nat pystr -> Prop.
Hypothesis P_insert : forall g n v, P g -> P (<[n := v]> g).

(** A match ends in its continuation, and what holds of the groups and
    survives a capture holds there. *)
Lemma rmatch_inv (r : regex) :
  forall st k res,
    rmatch u r st k = Some res -> P (groups st) ->
    exists st', P (groups st') /\ k st' = Some res.
Proof.
  induction r as [| | |a|l|r1 IH1 r2 IH2|r1 IH1 r2 IH2|r1 IH1|r1 IH1|n r1 IH1];
    intros st k res Hm HP; cbn [rmatch] in Hm.
  - eauto.
  - destruct (decide (pos st = 0)); [eauto | discriminate].
  - destruct (rest st) as [|c [|d t]]; [eauto | | discriminate].
    destruct (c =? 10)%N; [eauto | discriminate].
  - destruct (rest st) as [|c t]; [discriminate|].
    destruct (atom_matches u a c); [|discriminate].
    exists (advance st t). eauto.
  - destruct (rest st) as [|c t]; [discriminate|].
    destruct (existsb _ l); [|discriminate].
    exists (advance st t). eauto.
  - apply IH1 in Hm as (st1 & HP1 & Hm); [|done]. eauto.
  - destruct (rmatch u r1 st k) eqn:E; cbn in Hm.
    + injection Hm as ->. eauto.
    + eauto.
  - destruct (rmatch u r1 st k) eqn:E; cbn in Hm.
    + injection Hm as ->. eauto.
    + eauto.
  - remember (length (rest st)) as fuel eqn:Hf. clear Hf.
    revert st Hm HP.
    induction fuel as [|fuel IHf]; intros st Hm HP; cbn [iterate] in Hm;
      apply IH1 in Hm as (st1 & HP1 & Hm); [eauto|done| |done].
    destruct (decide (pos st < pos st1)); [|eauto].
    destruct (iterate _ k fuel st1) eqn:E; cbn in Hm; [|eauto].
    injection Hm as ->. eauto.
  - apply IH1 in Hm as (st1 & HP1 & Hm); [|done].
    eexists. split; [|exact Hm]. cbn. by apply P_insert.
Qed.
End Matching.

Lemma rmatch_reaches (u : N -> bool) (r : regex) st k res :
  rmatch u r st k = Some res -> exists st', k st' = Some res.
Proof.
  intros Hm.
  destruct (rmatch_inv u (fun _ => True) (fun _ _ _ _ => I) r st k res Hm I)
    as (st' & _ & H).
  eauto.
Qed.

Lemma rmatch_keeps (u : N -> bool) (n : nat) (r : regex) st k res :
  rmatch u r st k = Some res -> is_Some (groups st !! n) ->
  exists st', is_Some (groups st' !! n) /\ k st' = Some res.
Proof.
  apply (rmatch_inv u (fun g => is_Some (g !! n))).
  intros g m v Hg. rewrite lookup_insert. by case_decide.
Qed.

(** A group that lies on every path of the pattern took part in every
    match. *)
Lemma rmatch_on_every_path (u : N -> bool) (n : nat) (r : regex) :
  on_every_path n r = true ->
  forall st k res,
    rmatch u r st k = Some res ->
    exists st', is_Some (groups st' !! n) /\ k st' = Some res.
Proof.
  induction r as [| | |a|l|r1 IH1 r2 IH2|r1 IH1 r2 IH2|r1 IH1|r1 IH1|m r1 IH1];
    cbn [on_every_path]; intros Hn st k res Hm; try discriminate;
    cbn [rmatch] in Hm.
  - apply orb_prop in Hn as [Hn|Hn].
    + apply (IH1 Hn) in Hm as (st1 & H1 & Hm).
      by apply (rmatch_keeps u n) in Hm.
    + apply rmatch_reaches in Hm as (st1 & Hm). eauto.
  - apply andb_prop in Hn as [Hn1 Hn2].
    destruct (rmatch u r1 st k) eqn:E; cbn in Hm.
    + injection Hm as ->. eauto.
    + eauto.
  - apply orb_prop in Hn as [Hn|Hn].
    + apply bool_decide_eq_true in Hn as ->.
      apply rmatch_reaches in Hm as (st1 & Hm).
      eexists. split; [|exact Hm]. cbn. rewrite lookup_insert_eq. eauto.
    + apply (IH1 Hn) in Hm as (st1 & H1 & Hm).
      eexists. split; [|exact Hm]. cbn.
      rewrite lookup_insert. by case_decide.
Qed.

Lemma YOUTUBE_RE_group_5 (u : N -> bool) (subject : pystr) m :
  re_match u YOUTUBE_RE subject = Some m -> is_Some (m !! 5).
Proof.
  unfold re_match. intros Hm.
  destruct (rmatch u YOUTUBE_RE _ Some) as [res|] eqn:E; [|discriminate].
  injection Hm as <-.
  apply (rmatch_on_every_path u 5) in E as (st' & H & [= ->]); done.
Qed.

(** ** The embedded strategy *)

Lemma embedded_generate_eq (w : World) (st : State) :
  article_type (article (self st)) = Some ArticleType.embedded ->
  fst (EmbeddedContentGenerator_generate w st)
  = match re_match (unicode_isalnum w) YOUTUBE_RE (link (article (self st))) with
    | Some m =>
        Return (true,
                <["videoId" := from_option PyStr PyNone (m !! 5)]>
                  (<["player" := PyStr (str "youtube")]>
                     {["type" := PyStr (str "embedded")]}))
    | None => Return (true, ∅)
    end.
Proof.
  intros Ht.
  unfold EmbeddedContentGenerator_generate, article_type_value.
  unfold bind at 1, get_self.
  destruct (re_match _ YOUTUBE_RE _) as [m|]; run; [|reflexivity].
  rewrite Ht. reflexivity.
Qed.

(** C6: for an article of the embedded type, [generate] returns True with
    the type "embedded", the player "youtube" and the fifth group of the
    match as videoId when the link matches YOUTUBE_RE, and True with an
    empty content when it does not. *)
Theorem embedded_generate_outcome (w : World) (st : State) :
  cls (self st) = EmbeddedContentGenerator ->
  article_type (article (self st)) = Some ArticleType.embedded ->
  match re_match (unicode_isalnum w) YOUTUBE_RE (link (article (self st))) with
  | Some m =>
      exists videoId : pystr,
        m !! 5 = Some videoId
        /\ fst (generate w st)
           = Return (true,
                     <["videoId" := PyStr videoId]>
                       (<["player" := PyStr (str "youtube")]>
                          {["type" := PyStr (str "embedded")]}))
  | None => fst (generate w st) = Return (true, ∅)
  end.
Proof.
  intros Hc Ht.
  assert (fst (generate w st) = fst (EmbeddedContentGenerator_generate w st))
    as -> by (unfold generate, bind at 1, get_self; by rewrite Hc).
  rewrite embedded_generate_eq by done.
  destruct (re_match _ YOUTUBE_RE _) as [m|] eqn:E; [|reflexivity].
  destruct (YOUTUBE_RE_group_5 _ _ _ E) as [videoId Hv].
  exists videoId. by rewrite Hv.
Qed.

Lemma embedded_generate_outcome_video :
  cls (self (fresh video)) = EmbeddedContentGenerator
  /\ article_type (article (self (fresh video))) = Some ArticleType.embedded
  /\ match re_match (unicode_isalnum offline) YOUTUBE_RE
             (link (article (self (fresh video)))) with
     | Some m =>
         exists videoId : pystr,
           m !! 5 = Some videoId
           /\ fst (generate offline (fresh video))
              = Return (true,
                        <["videoId" := PyStr videoId]>
                          (<["player" := PyStr (str "youtube")]>
                             {["type" := PyStr (str "embedded")]}))
     | None => fst (generate offline (fresh video)) = Return (true, ∅)
     end.
Proof.
  split; [reflexivity|]. split; [reflexivity|].
  apply (embedded_generate_outcome offline (fresh video)); reflexivity.
Defined.

Example embedded_generate_video :
  fst (generate offline (fresh video))
  = Return (true,
            <["videoId" := PyStr (str "dQw4w9WgXcQ")]>
              (<["player" := PyStr (str "youtube")]>
                 {["type" := PyStr (str "embedded")]})).
Proof. by vm_compute. Qed.

(** ** What the methods leave of the instance *)

Lemma same_instance_logged (st : State) (l : list level) :
  same_instance st
    {| self := self st; trace := (trace st ++ (Log <$> l))%list |}.
Proof.
  repeat split. eexists. split; [reflexivity|].
  intros H. apply list_elem_of_fmap in H as (x & [=] & _).
Qed.

Lemma same_instance_classifications (st st' : State) :
  same_instance st st' -> classifications st' = classifications st.
Proof.
  intros (_ & _ & evs & Ht & Hn). unfold classifications. rewrite Ht.
  rewrite List.filter_app, length_app.
  replace (List.filter _ evs) with (@nil event); [cbn; lia|].
  symmetry. clear Ht. induction evs as [|e evs IH]; [reflexivity|]. cbn.
  apply not_elem_of_cons in Hn as [He Hn].
  rewrite bool_decide_eq_false_2 by congruence. auto.
Qed.

Lemma classified_classifications (st : State) :
  classifications (classified st) = S (classifications st).
Proof.
  unfold classifications, classified; cbn.
  rewrite List.filter_app, length_app.
  change (length (List.filter _ [Classify])) with 1. lia.
Qed.

Lemma base_get_vector_same_instance (w : World) (st : State) :
  same_instance st (snd (ContentGenerator_get_vector w st)).
Proof.
  unfold ContentGenerator_get_vector. rewrite lazy_fetch.
  replace (snd _) with (fetched w st); [apply fetched_same_instance|].
  run. destruct (_page (self (fetched w st))); [|reflexivity].
  by case_bool_decide.
Qed.

Lemma truncated_generate_same_instance (w : World) (st : State) :
  same_instance st (snd (TruncatedContentGenerator_generate w st)).
Proof.
  unfold TruncatedContentGenerator_generate. rewrite lazy_fetch.
  apply (same_instance_trans _ (fetched w st));
    [apply fetched_same_instance|].
  generalize (fetched w st) as st1. intros st1.
  unfold ContentGenerator__from_goose_to_html. run.
  destruct (_page (self st1)) as [page|] eqn:Hp; cbn;
    [|rewrite <- app_assoc; apply (same_instance_logged st1 [ERROR; DEBUG])].
  destruct (top_node page) as [n|]; cbn;
    [|rewrite <- app_assoc; apply (same_instance_logged st1 [ERROR; DEBUG])].
  destruct (serialize_from n []) as [html|e]; cbn;
    [|rewrite <- app_assoc; apply (same_instance_logged st1 [ERROR; DEBUG])].
  rewrite Hp; cbn.
  destruct (truthy (comments (article (self st1)))); cbn;
    apply (same_instance_logged st1 [DEBUG]).
Qed.

Lemma image_generate_same_instance (st : State) :
  same_instance st (snd (ImageContentGenerator_generate st)).
Proof.
  unfold ImageContentGenerator_generate, article_type_value. run.
  destruct (article_type (article (self st))); cbn;
    [|apply (same_instance_logged st [INFO])].
  destruct (slice_to _ _); cbn; apply (same_instance_logged st [INFO]).
Qed.

Lemma embedded_generate_same_instance (w : World) (st : State) :
  same_instance st (snd (EmbeddedContentGenerator_generate w st)).
Proof.
  unfold EmbeddedContentGenerator_generate, article_type_value.
  unfold bind at 1, get_self.
  destruct (re_match _ YOUTUBE_RE _) as [m|]; run;
    [|apply (same_instance_logged st [WARNING])].
  destruct (article_type (article (self st))); cbn;
    apply (same_instance_logged st [INFO]).
Qed.

Lemma reddit_generate_same_instance (w : World) (st : State) :
  same_instance (classified st) (snd (RedditContentGenerator_generate w st)).
Proof.
  unfold RedditContentGenerator_generate, bind.
  rewrite is_pure_reddit_post_eq.
  destruct (link_is_comments _); cbn [negb].
  - apply same_instance_refl.
  - apply truncated_generate_same_instance.
Qed.

Lemma reddit_get_vector_same_instance (w : World) (st : State) :
  same_instance (classified st) (snd (RedditContentGenerator_get_vector w st)).
Proof.
  unfold RedditContentGenerator_get_vector, bind.
  rewrite is_pure_reddit_post_eq.
  destruct (link_is_comments _); cbn [negb].
  - apply same_instance_refl.
  - apply base_get_vector_same_instance.
Qed.

Lemma one_call_other (st st' : State) :
  cls (self st) <> RedditContentGenerator ->
  same_instance st st' -> one_call st st'.
Proof.
  intros Hc H. pose proof (same_instance_classifications _ _ H) as Hn.
  destruct H as (? & ? & _). repeat split; [done..|].
  rewrite decide_False by done. lia.
Qed.

Lemma one_call_reddit (st st' : State) :
  cls (self st) = RedditContentGenerator ->
  same_instance (classified st) st' -> one_call st st'.
Proof.
  intros Hc H. pose proof (same_instance_classifications _ _ H) as Hn.
  rewrite classified_classifications in Hn.
  destruct H as (? & ? & _). repeat split; [done..|].
  rewrite decide_True by done. lia.
Qed.

Lemma generate_one_call (w : World) (st : State) :
  one_call st (snd (generate w st)).
Proof.
  unfold generate, bind at 1, get_self.
  destruct (cls (self st)) eqn:Hc.
  - apply one_call_other; [congruence | apply same_instance_refl].
  - apply one_call_other; [congruence | apply image_generate_same_instance].
  - apply one_call_other; [congruence | apply embedded_generate_same_instance].
  - apply one_call_other; [congruence | apply truncated_generate_same_instance].
  - apply one_call_reddit; [done | apply reddit_generate_same_instance].
Qed.

Lemma get_vector_one_call (w : World) (st : State) :
  one_call st (snd (get_vector w st)).
Proof.
  unfold get_vector, bind at 1, get_self.
  destruct (cls (self st)) eqn:Hc.
  - apply one_call_other; [congruence | apply base_get_vector_same_instance].
  - apply one_call_other; [congruence | apply same_instance_refl].
  - apply one_call_other; [congruence | apply same_instance_refl].
  - apply one_call_other; [congruence | apply base_get_vector_same_instance].
  - apply one_call_reddit; [done | apply reddit_get_vector_same_instance].
Qed.

(** C9, as the code has it: the class of an instance and its article are
    settled when the instance is built and no call changes them; the
    property [is_pure_reddit_post] is not memoised: every call of
    [generate] or [get_vector] on a reddit instance evaluates it once
    more, with the same answer, and no other instance ever does. *)
Theorem classification_on_every_call (w : World) (st : State) :
  one_call st (snd (generate w st))
  /\ one_call st (snd (get_vector w st))
  /\ fst (RedditContentGenerator_is_pure_reddit_post w (snd (generate w st)))
     = fst (RedditContentGenerator_is_pure_reddit_post w st)
  /\ fst (RedditContentGenerator_is_pure_reddit_post w (snd (get_vector w st)))
     = fst (RedditContentGenerator_is_pure_reddit_post w st).
Proof.
  pose proof (generate_one_call w st) as Hg.
  pose proof (get_vector_one_call w st) as Hv.
  split; [exact Hg|]. split; [exact Hv|].
  destruct Hg as (_ & Hg & _). destruct Hv as (_ & Hv & _).
  rewrite !is_pure_reddit_post_eq. cbn [fst].
  by rewrite Hg, Hv.
Qed.

(** C9 as stated fails on the reddit instance of [crosspost]: its second
    [generate] evaluates the property a second time. *)
Lemma reddit_generate_classifies_again :
  cls (self (fresh crosspost)) = RedditContentGenerator
  /\ classifications (snd (generate offline (fresh crosspost))) = 1
  /\ classifications
       (snd (generate offline (snd (generate offline (fresh crosspost))))) = 2.
Proof. repeat split; by vm_compute. Qed.

(** ** The cache of get_content_generator *)

Lemma cache_find_None (key : nat) (c : list (nat * nat)) :
  cache_find key c = None <-> key ∉ c.*1.
Proof.
  unfold cache_find. induction c as [|[k v] c IH]; cbn.
  - split; [intros _; apply not_elem_of_nil | done].
  - rewrite not_elem_of_cons. case_bool_decide as Hk; cbn in *.
    + split; [discriminate | intros [? _]; congruence].
    + rewrite IH. split; [intros ?; split; [congruence | done] | tauto].
Qed.


Lemma cache_remove_keys (key : nat) (c : list (nat * nat)) (k : nat) :
  k ∈ (cache_remove key c).*1 <-> k ∈ c.*1 /\ k <> key.
Proof.
  unfold cache_remove. induction c as [|[k0 v] c IH]; cbn.
  - rewrite elem_of_nil. tauto.
  - case_bool_decide as Hk; cbn in *.
    + subst k0. rewrite IH, elem_of_cons. split; [tauto|].
      intros [[->|?] ?]; [done | tauto].
    + rewrite !elem_of_cons, IH. split; [|tauto].
      intros [->|[? ?]]; [split; [by left | done] | tauto].
Qed.

Lemma cache_remove_NoDup (key : nat) (c : list (nat * nat)) :
  NoDup c.*1 -> NoDup (cache_remove key c).*1.
Proof.
  induction c as [|[k v] c IH]; cbn; [done|].
  intros [Hk Hnd]%NoDup_cons. case_bool_decide; cbn; [auto|].
  apply NoDup_cons. split; [|auto].
  fold (cache_remove key c). rewrite cache_remove_keys. tauto.
Qed.


Lemma cache_remove_length (key : nat) (c : list (nat * nat)) :
  key ∈ c.*1 -> length (cache_remove key c) < length c.
Proof.
  assert (forall c', length (cache_remove key c') <= length c') as Hle.
  { intros c'. induction c' as [|[k v] c' IH]; cbn; [lia|].
    case_bool_decide; cbn; fold (cache_remove key c'); lia. }
  induction c as [|[k v] c IH]; cbn; [by intros ?%elem_of_nil|].
  intros [<-|Hin]%elem_of_cons.
  - rewrite bool_decide_eq_true_2 by done. cbn.
    fold (cache_remove key c). specialize (Hle c). lia.
  - case_bool_decide; cbn; fold (cache_remove key c);
      [specialize (Hle c) | specialize (IH Hin)]; lia.
Qed.

Lemma distinct_bound (l seen : list nat) :
  NoDup l -> (forall k, k ∈ l -> k ∈ seen) ->
  length l <= length (remove_dups seen).
Proof.
  intros Hnd Hsub. apply submseteq_length, NoDup_submseteq; [done|].
  intros k Hk. apply elem_of_remove_dups. auto.
Qed.

Lemma removelast_facts (c : list (nat * nat)) :
  c <> [] -> NoDup c.*1 ->
  NoDup (removelast c).*1
  /\ (forall k, k ∈ (removelast c).*1 -> k ∈ c.*1)
  /\ length c = S (length (removelast c)).
Proof.
  intros Hne Hnd.
  pose proof (app_removelast_last (0, 0) Hne) as Hc.
  set (kept := removelast c) in *. clearbody kept.
  rewrite Hc in Hnd |- *. rewrite fmap_app in Hnd |- *.
  apply NoDup_app in Hnd as (Hnd & _ & _).
  repeat split; [done | |].
  - intros k Hk. apply elem_of_app. by left.
  - rewrite length_app. cbn. lia.
Qed.


Lemma lookups_cons (b : Article) (others : list Article) (p : Process) :
  snd (lookups (b :: others) p)
  = snd (lookups others (snd (get_content_generator b p))).
Proof.
  cbn [lookups]. destruct (get_content_generator b p) as [r p'].
  cbn [snd]. by destruct (lookups others p').
Qed.


Lemma first_lookup_cached (a : Article) (p : Process) :
  NoDup (cache p).*1 -> length (cache p) <= lru_maxsize ->
  cached_behind (obj_id a) (fst (get_content_generator a p)) []
    (snd (get_content_generator a p)).
Proof.
  intros Hnd Hlen. unfold get_content_generator.
  destruct (cache_find (obj_id a) (cache p)) as [r|] eqn:Hf; cbn [fst snd].
  - exists [], (cache_remove (obj_id a) (cache p)).
    assert (obj_id a ∈ (cache p).*1) as Hin.
    { destruct (decide (obj_id a ∈ (cache p).*1)) as [|Hn]; [done|].
      apply cache_find_None in Hn. congruence. }
    repeat split; cbn.
    + apply NoDup_cons. split; [|by apply cache_remove_NoDup].
      rewrite cache_remove_keys. tauto.
    + by intros k ?%elem_of_nil.
    + apply cache_remove_length in Hin. lia.
  - apply cache_find_None in Hf.
    destruct (decide (length (cache p) < lru_maxsize)) as [Hroom|Hfull].
    + exists [], (cache p). repeat split; cbn.
      * by apply NoDup_cons.
      * by intros k ?%elem_of_nil.
      * lia.
    + assert (cache p <> []) as Hnil.
      { intros E. rewrite E in Hfull. unfold lru_maxsize in Hfull.
        cbn in Hfull. lia. }
      destruct (removelast_facts _ Hnil Hnd) as (Hnd' & Hsub' & Hlen').
      exists [], (removelast (cache p)). repeat split; cbn.
      * apply NoDup_cons. split; [|done]. intros Hk. apply Hf. auto.
      * by intros k ?%elem_of_nil.
      * lia.
Qed.


















(** ** Which calls raise *)

Lemma resolution_order_image (a : Article) :
  resolution_order a = ImageContentGenerator ->
  article_type a = Some ArticleType.image.
Proof.
  unfold resolution_order.
  destruct (article_type a) as [[| |v]|], (feed_type (feed a)) as [[|v']|],
    (truncated_content (feed a)); cbn; congruence.
Qed.

Lemma resolution_order_embedded (a : Article) :
  resolution_order a = EmbeddedContentGenerator ->
  article_type a = Some ArticleType.embedded.
Proof.
  unfold resolution_order.
  destruct (article_type a) as [[| |v]|], (feed_type (feed a)) as [[|v']|],
    (truncated_content (feed a)); cbn; congruence.
Qed.

(** X16: [get_vector] returns, whatever the class and the world. *)
Lemma get_vector_returns (w : World) (st : State) :
  exists v, fst (get_vector w st) = Return v.
Proof.
  assert (exists v, fst (ContentGenerator_get_vector w st) = Return v) as Hb.
  { unfold ContentGenerator_get_vector. rewrite lazy_fetch. run.
    destruct (_page (self (fetched w st))); [|by eexists].
    case_bool_decide; by eexists. }
  assert (forall st', exists v,
            fst (ContentGenerator_get_vector w st') = Return v) as Hb'.
  { intros st'. unfold ContentGenerator_get_vector. rewrite lazy_fetch. run.
    destruct (_page (self (fetched w st'))); [|by eexists].
    case_bool_decide; by eexists. }
  unfold get_vector, bind at 1, get_self.
  destruct (cls (self st)); try done; try by eexists.
  unfold RedditContentGenerator_get_vector, bind.
  rewrite is_pure_reddit_post_eq.
  destruct (link_is_comments _); cbn [negb]; [by eexists | apply Hb'].
Qed.

(** On an instance the registry built, [generate] raises in one case only:
    the image strategy on an article without title and body. *)
Lemma generate_raises_only_untitled (w : World) (st : State) (e : exn) :
  cls (self st) = resolution_order (article (self st)) ->
  fst (generate w st) = Raise e ->
  cls (self st) = ImageContentGenerator
  /\ py_or (title (article (self st))) (content (article (self st))) = PyNone
  /\ e = TypeError.
Proof.
  intros Hr. unfold generate, bind at 1, get_self.
  destruct (cls (self st)) eqn:Hc.
  - discriminate.
  - symmetry in Hr. apply resolution_order_image in Hr.
    destruct (py_or (title (article (self st))) (content (article (self st))))
      as [|text] eqn:Ht.
    + unfold ImageContentGenerator_generate, article_type_value. run.
      rewrite Hr, Ht. cbn. by intros [= <-].
    + by rewrite (image_generate_eq st _ text Hr Ht).
  - symmetry in Hr. apply resolution_order_embedded in Hr.
    rewrite embedded_generate_eq by done.
    by destruct (re_match _ YOUTUBE_RE _).
  - rewrite truncated_generate_eq.
    by destruct (rebuilt _) as [[page html]|].
  - unfold RedditContentGenerator_generate, bind.
    rewrite is_pure_reddit_post_eq.
    destruct (link_is_comments _); cbn [negb]; [discriminate|].
    rewrite truncated_generate_eq.
    by destruct (rebuilt _) as [[page html]|].
Qed.

(** ** Runs *)

Example truncated_generate_teaser :
  cls (self (fresh teaser)) = TruncatedContentGenerator
  /\ generate online (fresh teaser)
     = (Return (true,
                <["comments" := PyStr (str "https://example.com/story#comments")]>
                  (<["link" := PyStr (str "https://example.com/story/full")]>
                     (<["content" := PyStr (str "<p>one</p><p>two</p>")]>
                        {["type" := PyStr (str "fetched")]}))),
        {| self := self (snd (ContentGenerator__get_goose online (fresh teaser)));
           trace := [GooseExtract (str "https://example.com/story");
                     Log DEBUG] |}).
Proof. split; by vm_compute. Qed.

Example truncated_generate_offline :
  generate offline (fresh teaser)
  = (Return (false, {["type" := PyStr (str "fetched")]}),
     {| self := self (fresh teaser);
        trace := [GooseExtract (str "https://example.com/story");
                  Log ERROR; Log ERROR; Log DEBUG] |}).
Proof. by vm_compute. Qed.

Example image_generate_drawing :
  generate offline (fresh drawing)
  = (Return (true,
             <["src" := PyStr (str "https://example.com/tom.png")]>
               (<["alt" := PyStr (str "Tom &amp; &lt;Jerry&gt;")]>
                  {["type" := PyStr (str "image")]})),
     {| self := self (fresh drawing); trace := [Log INFO] |})
  /\ get_vector offline (fresh drawing) = (Return None, fresh drawing).
Proof. split; by vm_compute. Qed.

Example reddit_generate_crosspost :
  generate online (fresh crosspost)
  = TruncatedContentGenerator_generate online (classified (fresh crosspost)).
Proof. by vm_compute. Qed.

Example get_vector_teaser :
  fst (get_vector online (fresh teaser)) = Return (Some {| vector_of := str "story" |}).
Proof. by vm_compute. Qed.

(** * Further properties *)

(** ** _get_goose *)

(** X1: [_get_goose] asks goose once, for the link of the article. When
    goose answers, the instance has the page it answered with (none, if it
    answered with none) and nothing is logged; when goose raises, the page
    of the instance stays as it was and one error is logged. It returns
    True exactly when the instance has a page afterwards; when it has none
    the extracted infos are as they were. It never raises. *)
Theorem get_goose_contract (w : World) (st : State) :
  let target := link (article (self st)) in
  let st' := snd (ContentGenerator__get_goose w st) in
  fst (ContentGenerator__get_goose w st)
  = Return (bool_decide (is_Some (_page (self st'))))
  /\ (_page (self st') = None ->
      extracted_infos (self st') = extracted_infos (self st))
  /\ match goose_answer w st with
     | Return page =>
         _page (self st') = page
         /\ trace st' = trace st ++ [GooseExtract target]
     | Raise _ =>
         _page (self st') = _page (self st)
         /\ trace st' = trace st ++ [GooseExtract target; Log ERROR]
     end.
Proof.
  unfold goose_answer, ContentGenerator__get_goose. run.
  destruct (goose_extract w _ _) as [[page|]|e]; cbn.
  - split; [done|]. split; [done|]. by split.
  - split; [done|]. split; [done|]. by split.
  - destruct (_page (self st)) as [page|] eqn:Hp; cbn; rewrite ?Hp;
      (split; [done|]; split; [done|]; split; [done|];
       by rewrite <- app_assoc).
Qed.

Lemma get_goose_contract_teaser :
  goose_answer offline (fresh teaser) = Raise NetworkError
  /\ fst (ContentGenerator__get_goose offline (fresh teaser)) = Return false
  /\ extracted_infos (self (snd (ContentGenerator__get_goose offline (fresh teaser))))
     = extracted_infos (self (fresh teaser))
  /\ _page (self (snd (ContentGenerator__get_goose offline (fresh teaser))))
     = _page (self (fresh teaser))
  /\ trace (snd (ContentGenerator__get_goose offline (fresh teaser)))
     = trace (fresh teaser)
       ++ [GooseExtract (link (article (self (fresh teaser)))); Log ERROR].
Proof.
  destruct (get_goose_contract offline (fresh teaser)) as (H1 & H2 & H3).
  split; [reflexivity|]. split; [exact H1|].
  split; [apply H2; reflexivity | exact H3].
Defined.

(** X2: After [_get_goose] the infos describe the page of the instance: its
    final URL, its title, the opengraph locale or else the language of the
    page, and as tags the tags of the page together with the pieces of its
    keywords; a page without keywords gets the empty tag. *)
Theorem get_goose_extracted_infos (w : World) (st : State) (page : Page) :
  _page (self (snd (ContentGenerator__get_goose w st))) = Some page ->
  let infos := extracted_infos (self (snd (ContentGenerator__get_goose w st))) in
  infos !! "link" = Some (InfoVal (PyStr (final_url page)))
  /\ infos !! "title" = Some (InfoVal (PyStr (page_title page)))
  /\ infos !! "lang"
     = Some (InfoVal match opengraph page !! "locale" with
                     | Some (c :: l) => PyStr (c :: l)
                     | _ => meta_lang page
                     end)
  /\ exists tagset : gset pystr,
       infos !! "tags" = Some (InfoTags tagset)
       /\ (forall t, t ∈ tagset
                     <-> t ∈ tags page
                         \/ t ∈ split_comma_space (meta_keywords page) [])
       /\ (meta_keywords page = [] -> [] ∈ tagset).
Proof.
  unfold ContentGenerator__get_goose. run.
  assert (forall infos0 : gmap string info,
    let infos :=
      <["title" := InfoVal (PyStr (page_title page))]>
        (<["tags" := InfoTags (list_to_set (tags page)
                               ∪ list_to_set
                                   (split_comma_space (meta_keywords page) []))]>
           (<["link" := InfoVal (PyStr (final_url page))]>
              (<["lang" := InfoVal
                             (py_or (from_option PyStr PyNone
                                       (opengraph page !! "locale"))
                                    (meta_lang page))]> infos0))) in
    infos !! "link" = Some (InfoVal (PyStr (final_url page)))
    /\ infos !! "title" = Some (InfoVal (PyStr (page_title page)))
    /\ infos !! "lang"
       = Some (InfoVal match opengraph page !! "locale" with
                       | Some (c :: l) => PyStr (c :: l)
                       | _ => meta_lang page
                       end)
    /\ exists tagset : gset pystr,
         infos !! "tags" = Some (InfoTags tagset)
         /\ (forall t, t ∈ tagset
                       <-> t ∈ tags page
                           \/ t ∈ split_comma_space (meta_keywords page) [])
         /\ (meta_keywords page = [] -> [] ∈ tagset)) as Hinfos.
  { intros infos0 infos. subst infos.
    split; [by simplify_map_eq|]. split; [by simplify_map_eq|].
    split.
    { simplify_map_eq. do 2 f_equal. unfold py_or.
      by destruct (opengraph page !! "locale") as [[|c l]|]. }
    eexists. split; [by simplify_map_eq|]. split.
    - intros t. rewrite elem_of_union, !elem_of_list_to_set. tauto.
    - intros ->. rewrite elem_of_union, !elem_of_list_to_set. right. cbn. left. }
  destruct (goose_extract w _ _) as [[page'|]|e]; cbn.
  - intros [= ->]. apply Hinfos.
  - discriminate.
  - destruct (_page (self st)) as [page'|] eqn:Hp; cbn; rewrite ?Hp;
      [|discriminate].
    intros [= ->]. apply Hinfos.
Qed.

Lemma get_goose_extracted_infos_teaser :
  _page (self (snd (ContentGenerator__get_goose online (fresh teaser))))
  = Some story_page
  /\ extracted_infos (self (snd (ContentGenerator__get_goose online (fresh teaser))))
     !! "link"
     = Some (InfoVal (PyStr (final_url story_page))).
Proof.
  split; [reflexivity|].
  apply (get_goose_extracted_infos online (fresh teaser) story_page).
  reflexivity.
Defined.

Lemma split_comma_space_cons (s cur : pystr) :
  exists piece pieces, split_comma_space s cur = piece :: pieces.
Proof.
  revert cur. induction s as [|c t IH]; intros cur; cbn; [by eexists _, _|].
  destruct t as [|d t']; [by eexists _, _|].
  destruct ((c =? 44)%N && (d =? 32)%N)%bool; [by eexists _, _ | apply IH].
Qed.

Lemma split_comma_space_step (c d : N) (t' cur : pystr) :
  split_comma_space (c :: d :: t') cur
  = if ((c =? 44)%N && (d =? 32)%N)%bool
    then rev cur :: split_comma_space t' []
    else split_comma_space (d :: t') (c :: cur).
Proof. reflexivity. Qed.

Lemma split_join_length (n : nat) :
  forall s cur : pystr,
    length s <= n ->
    join_comma_space (split_comma_space s cur) = rev cur ++ s.
Proof.
  induction n as [|n IH]; intros s cur Hn.
  - destruct s; [|cbn in Hn; lia]. cbn. by rewrite app_nil_r.
  - destruct s as [|c [|d t']].
    + cbn. by rewrite app_nil_r.
    + cbn. reflexivity.
    + rewrite split_comma_space_step.
      destruct ((c =? 44)%N && (d =? 32)%N)%bool eqn:E.
      * apply andb_prop in E as [Ec Ed].
        apply N.eqb_eq in Ec, Ed. subst c d.
        assert (join_comma_space (rev cur :: split_comma_space t' [])
                = rev cur ++ [44%N; 32%N]
                  ++ join_comma_space (split_comma_space t' [])) as ->.
        { by destruct (split_comma_space_cons t' [])
            as (piece & pieces & ->). }
        rewrite IH by (cbn in Hn; lia). reflexivity.
      * rewrite IH by (cbn in Hn |- *; lia). cbn [rev].
        by rewrite <- app_assoc.
Qed.

(** X3: The pieces of [s.split(', ')], joined by [', '], give [s] back, and
    there is always a piece. *)
Theorem split_comma_space_join (s : pystr) :
  join_comma_space (split_comma_space s []) = s
  /\ split_comma_space s [] <> [].
Proof.
  split.
  - by rewrite (split_join_length (length s)).
  - by destruct (split_comma_space_cons s []) as (piece & pieces & ->).
Qed.

(** ** Calls to goose *)

Lemma after_fetching_trace (n : nat) (st st' : State) (evs : list event) :
  trace st' = trace st ++ evs ->
  length (List.filter is_fetch evs) = n ->
  List.filter is_request evs = [] ->
  (forall page, _page (self st) = Some page -> _page (self st') = Some page) ->
  after_fetching n st st'.
Proof.
  intros Ht Hn Hr Hp. unfold after_fetching, fetches, requests.
  rewrite Ht, !List.filter_app, !length_app, Hn, Hr. cbn.
  split; [lia|]. split; [lia | done].
Qed.

Lemma after_fetching_refl (st : State) : after_fetching 0 st st.
Proof.
  apply (after_fetching_trace 0 st st []); [by rewrite app_nil_r | done..].
Qed.

Lemma after_fetching_trans (n m : nat) (st1 st2 st3 : State) :
  after_fetching n st1 st2 -> after_fetching m st2 st3 ->
  after_fetching (n + m) st1 st3.
Proof.
  intros (Hf & Hr & Hp) (Hf' & Hr' & Hp').
  repeat split; [lia | congruence | auto].
Qed.

Lemma filter_logs (f : event -> bool) (l : list level) :
  (forall x, f (Log x) = false) -> List.filter f (Log <$> l) = [].
Proof.
  intros Hf. induction l as [|x l IH]; [done|]. cbn. by rewrite Hf.
Qed.

Lemma after_fetching_logged (st : State) (l : list level) :
  after_fetching 0 st {| self := self st; trace := trace st ++ (Log <$> l) |}.
Proof.
  apply (after_fetching_trace 0 _ _ (Log <$> l)); [done | | | done].
  - by rewrite filter_logs.
  - by rewrite filter_logs.
Qed.

Lemma after_fetching_classified (st : State) :
  after_fetching 0 st (classified st).
Proof. by apply (after_fetching_trace 0 _ _ [Classify]). Qed.

Lemma get_goose_after_fetching (w : World) (st : State) :
  _page (self st) = None ->
  after_fetching 1 st (snd (ContentGenerator__get_goose w st)).
Proof.
  intros Hp. unfold ContentGenerator__get_goose. run.
  destruct (goose_extract w _ _) as [[page|]|e]; cbn.
  - apply (after_fetching_trace 1 _ _ [GooseExtract (link (article (self st)))]);
      [done | done | done | intros page'; by rewrite Hp].
  - apply (after_fetching_trace 1 _ _ [GooseExtract (link (article (self st)))]);
      [done | done | done | intros page'; by rewrite Hp].
  - rewrite Hp. cbn.
    apply (after_fetching_trace 1 _ _
             [GooseExtract (link (article (self st))); Log ERROR]);
      [by rewrite <- app_assoc | done | done | intros page'; by rewrite Hp].
Qed.

Lemma fetched_after_fetching (w : World) (st : State) :
  after_fetching (if bool_decide (_page (self st) = None) then 1 else 0)
    st (fetched w st).
Proof.
  unfold fetched. destruct (_page (self st)) eqn:Hp.
  - rewrite bool_decide_eq_false_2 by done. apply after_fetching_refl.
  - rewrite bool_decide_eq_true_2 by done. by apply get_goose_after_fetching.
Qed.

Lemma base_get_vector_after_fetching (w : World) (st : State) :
  after_fetching (if bool_decide (_page (self st) = None) then 1 else 0)
    st (snd (ContentGenerator_get_vector w st)).
Proof.
  unfold ContentGenerator_get_vector. rewrite lazy_fetch.
  replace (snd _) with (fetched w st); [apply fetched_after_fetching|].
  run. destruct (_page (self (fetched w st))); [|reflexivity].
  by case_bool_decide.
Qed.

Lemma truncated_generate_after_fetching (w : World) (st : State) :
  after_fetching (if bool_decide (_page (self st) = None) then 1 else 0)
    st (snd (TruncatedContentGenerator_generate w st)).
Proof.
  unfold TruncatedContentGenerator_generate. rewrite lazy_fetch.
  rewrite <- (Nat.add_0_r (if bool_decide _ then 1 else 0)).
  apply (after_fetching_trans _ _ _ (fetched w st));
    [apply fetched_after_fetching|].
  generalize (fetched w st) as st1. intros st1.
  unfold ContentGenerator__from_goose_to_html. run.
  destruct (_page (self st1)) as [page|] eqn:Hp; cbn;
    [|rewrite <- app_assoc; apply (after_fetching_logged st1 [ERROR; DEBUG])].
  destruct (top_node page) as [n|]; cbn;
    [|rewrite <- app_assoc; apply (after_fetching_logged st1 [ERROR; DEBUG])].
  destruct (serialize_from n []) as [html|e]; cbn;
    [|rewrite <- app_assoc; apply (after_fetching_logged st1 [ERROR; DEBUG])].
  rewrite Hp; cbn.
  destruct (truthy (comments (article (self st1)))); cbn;
    apply (after_fetching_logged st1 [DEBUG]).
Qed.

Lemma image_generate_after_fetching (st : State) :
  after_fetching 0 st (snd (ImageContentGenerator_generate st)).
Proof.
  unfold ImageContentGenerator_generate, article_type_value. run.
  destruct (article_type (article (self st))); cbn;
    [|apply (after_fetching_logged st [INFO])].
  destruct (slice_to _ _); cbn; apply (after_fetching_logged st [INFO]).
Qed.

Lemma embedded_generate_after_fetching (w : World) (st : State) :
  after_fetching 0 st (snd (EmbeddedContentGenerator_generate w st)).
Proof.
  unfold EmbeddedContentGenerator_generate, article_type_value.
  unfold bind at 1, get_self.
  destruct (re_match _ YOUTUBE_RE _) as [m|]; run;
    [|apply (after_fetching_logged st [WARNING])].
  destruct (article_type (article (self st))); cbn;
    apply (after_fetching_logged st [INFO]).
Qed.

(** X4: A call of [generate] or of [get_vector] asks goose at most once, and
    only when the strategy works on the page and the instance has none yet:
    never for the base [generate], the image and embedded strategies or a
    reddit post whose link is its comments. No call sends a HEAD request,
    and a page the instance has stays. *)
Theorem calls_fetch_at_most_once (w : World) (st : State) :
  after_fetching (if generate_needs_page st then 1 else 0)
    st (snd (generate w st))
  /\ after_fetching (if get_vector_needs_page st then 1 else 0)
       st (snd (get_vector w st)).
Proof.
  unfold generate_needs_page, get_vector_needs_page, generate, get_vector.
  unfold bind, get_self.
  destruct (cls (self st)) eqn:Hc; cbn [fst snd].
  - split; [apply after_fetching_refl | apply base_get_vector_after_fetching].
  - split; [apply image_generate_after_fetching | apply after_fetching_refl].
  - split; [apply embedded_generate_after_fetching | apply after_fetching_refl].
  - split; [apply truncated_generate_after_fetching
           | apply base_get_vector_after_fetching].
  - unfold RedditContentGenerator_generate, RedditContentGenerator_get_vector.
    unfold bind. rewrite is_pure_reddit_post_eq.
    destruct (link_is_comments _); cbn [negb andb].
    + split; apply after_fetching_classified.
    + split.
      * apply (after_fetching_trans 0 _ _ (classified st));
          [apply after_fetching_classified|].
        apply (truncated_generate_after_fetching w (classified st)).
      * apply (after_fetching_trans 0 _ _ (classified st));
          [apply after_fetching_classified|].
        apply (base_get_vector_after_fetching w (classified st)).
Qed.

Lemma call_with_page (w : World) (c : call) (st : State) (page : Page) :
  _page (self st) = Some page -> after_fetching 0 st (run_call w c st).
Proof.
  intros Hp.
  pose proof (base_get_vector_after_fetching w st) as Hb.
  pose proof (truncated_generate_after_fetching w st) as Ht.
  pose proof (base_get_vector_after_fetching w (classified st)) as Hb'.
  pose proof (truncated_generate_after_fetching w (classified st)) as Ht'.
  rewrite bool_decide_eq_false_2 in Hb, Ht, Hb', Ht'
    by (cbn; rewrite Hp; discriminate).
  destruct c; cbn [run_call]; unfold generate, get_vector, bind, get_self;
    destruct (cls (self st)); cbn [fst snd];
    try done; try apply after_fetching_refl;
    try apply image_generate_after_fetching;
    try apply embedded_generate_after_fetching.
  - unfold RedditContentGenerator_generate, bind.
    rewrite is_pure_reddit_post_eq.
    destruct (link_is_comments _); cbn [negb];
      [apply after_fetching_classified|].
    apply (after_fetching_trans 0 0 _ (classified st));
      [apply after_fetching_classified | done].
  - unfold RedditContentGenerator_get_vector, bind.
    rewrite is_pure_reddit_post_eq.
    destruct (link_is_comments _); cbn [negb];
      [apply after_fetching_classified|].
    apply (after_fetching_trans 0 0 _ (classified st));
      [apply after_fetching_classified | done].
Qed.

(** X5: Once an instance has its page, no run of calls asks goose again. *)
Theorem page_fetched_once (w : World) (calls : list call) (st : State)
    (page : Page) :
  _page (self st) = Some page ->
  fetches (run_calls w calls st) = fetches st
  /\ _page (self (run_calls w calls st)) = Some page.
Proof.
  revert st. induction calls as [|c calls IH]; intros st Hp; [done|].
  cbn [run_calls foldl]. fold (run_calls w calls (run_call w c st)).
  destruct (call_with_page w c st page Hp) as (Hf & _ & Hp').
  destruct (IH _ (Hp' _ Hp)) as [IHf IHp].
  split; [lia | done].
Qed.

Lemma page_fetched_once_teaser :
  _page (self (snd (generate online (fresh teaser)))) = Some story_page
  /\ fetches (run_calls online [GetVector; Generate; GetVector]
                (snd (generate online (fresh teaser))))
     = fetches (snd (generate online (fresh teaser)))
  /\ _page (self (run_calls online [GetVector; Generate; GetVector]
                    (snd (generate online (fresh teaser)))))
     = Some story_page.
Proof.
  split; [reflexivity|].
  apply (page_fetched_once online [GetVector; Generate; GetVector]
           (snd (generate online (fresh teaser))) story_page).
  reflexivity.
Defined.

(** ** Serialising the page *)

(** X7: The markup [_from_goose_to_html] builds is the serialisation of the top
    node followed by those of all its later siblings, in order; the first
    sibling that does not serialise makes the whole fail with its error. *)
Theorem serialize_from_siblings (n : node) (result : pystr) :
  (forall markups : list pystr,
     siblings n = Return <$> markups ->
     serialize_from n result = Return (result ++ concat markups))
  /\ (forall (before : list pystr) (e : exn) (after : list (outcome pystr)),
        siblings n = (Return <$> before) ++ Raise e :: after ->
        serialize_from n result = Raise e).
Proof.
  split.
  - intros markups. revert n result.
    induction markups as [|m markups IH]; intros [markup next] result Hs;
      [discriminate|].
    cbn in Hs. injection Hs as -> Hs. cbn [serialize_from concat].
    destruct next as [n'|].
    + rewrite (IH n' _ Hs). by rewrite <- app_assoc.
    + destruct markups; [|discriminate]. cbn. by rewrite app_nil_r.
  - intros before. revert n result.
    induction before as [|m before IH]; intros [markup next] result e after Hs.
    + cbn in Hs. injection Hs as -> _. reflexivity.
    + cbn in Hs. injection Hs as -> Hs. cbn [serialize_from].
      destruct next as [n'|]; [by apply (IH n' _ e after)|].
      by destruct before.
Qed.

Lemma serialize_from_siblings_story :
  siblings (Node (Return (str "<p>one</p>"))
              (Some (Node (Return (str "<p>two</p>")) None)))
  = Return <$> [str "<p>one</p>"; str "<p>two</p>"]
  /\ serialize_from (Node (Return (str "<p>one</p>"))
                       (Some (Node (Return (str "<p>two</p>")) None))) []
     = Return ([] ++ concat [str "<p>one</p>"; str "<p>two</p>"])
  /\ siblings (Node (Return (str "<p>one</p>")) (Some (Node (Raise TypeError) None)))
     = (Return <$> [str "<p>one</p>"]) ++ Raise TypeError :: []
  /\ serialize_from (Node (Return (str "<p>one</p>"))
                       (Some (Node (Raise TypeError) None))) []
     = Raise TypeError.
Proof.
  split; [reflexivity|]. split.
  - apply (serialize_from_siblings _ []). reflexivity.
  - split; [reflexivity|].
    apply (proj2 (serialize_from_siblings _ []) [str "<p>one</p>"] TypeError []).
    reflexivity.
Defined.

(** ** The alt text of an image *)

Lemma escape_char_markup_free (c : N) : Forall markup_free (escape_char c).
Proof.
  unfold escape_char.
  destruct (c =? 38)%N eqn:E38; [by repeat constructor|].
  destruct (c =? 60)%N eqn:E60; [by repeat constructor|].
  destruct (c =? 62)%N eqn:E62; [by repeat constructor|].
  destruct (c =? 34)%N eqn:E34; [by repeat constructor|].
  destruct (c =? 39)%N eqn:E39; [by repeat constructor|].
  apply N.eqb_neq in E60, E62, E34, E39.
  by repeat constructor.
Qed.

Lemma escape_char_length (c : N) : length (escape_char c) <= 6.
Proof.
  unfold escape_char.
  repeat (destruct (c =? _)%N; [cbn; lia|]). cbn. lia.
Qed.

Lemma html_escape_markup_free (s : pystr) :
  Forall markup_free (html_escape s) /\ length (html_escape s) <= 6 * length s.
Proof.
  unfold html_escape. induction s as [|c s [IH1 IH2]]; cbn [flat_map].
  - split; [constructor | cbn; lia].
  - split.
    + apply Forall_app. split; [apply escape_char_markup_free | done].
    + rewrite length_app. pose proof (escape_char_length c).
      change (length (c :: s)) with (S (length s)).
      lia.
Qed.

(** X8: Whatever the title and the body of the article hold, the alt text an
    image content carries has no [<], [>] or quote in it and at most 600
    characters. *)
Theorem image_alt_markup_free (st : State) (success : bool)
    (generated : GeneratedContent) :
  fst (ImageContentGenerator_generate st) = Return (success, generated) ->
  exists alt : pystr,
    generated !! "alt" = Some (PyStr alt)
    /\ Forall markup_free alt
    /\ length alt <= 600.
Proof.
  unfold ImageContentGenerator_generate, article_type_value. run.
  destruct (article_type (article (self st))) as [t|]; cbn; [|discriminate].
  destruct (py_or _ _) as [|text]; cbn; [discriminate|].
  intros [= <- <-]. eexists. split; [by simplify_map_eq|].
  destruct (html_escape_markup_free (take IMG_ALT_MAX_LENGTH text)) as [H1 H2].
  split; [done|].
  rewrite length_take in H2. unfold IMG_ALT_MAX_LENGTH, html_escape in *. lia.
Qed.

Lemma image_alt_markup_free_drawing :
  fst (ImageContentGenerator_generate (fresh drawing))
  = Return (true,
            <["src" := PyStr (str "https://example.com/tom.png")]>
              (<["alt" := PyStr (str "Tom &amp; &lt;Jerry&gt;")]>
                 {["type" := PyStr (str "image")]}))
  /\ exists alt : pystr,
       (<["src" := PyStr (str "https://example.com/tom.png")]>
          (<["alt" := PyStr (str "Tom &amp; &lt;Jerry&gt;")]>
             ({["type" := PyStr (str "image")]} : GeneratedContent)))
       !! "alt" = Some (PyStr alt)
       /\ Forall markup_free alt
       /\ length alt <= 600.
Proof.
  split; [by vm_compute|].
  apply (image_alt_markup_free (fresh drawing) true). by vm_compute.
Defined.

(** ** Registration *)

Lemma dict_get_cons (k k0 : type_key) (v0 : class) (d : registry) :
  dict_get k ((k0, v0) :: d)
  = if bool_decide (k0 = k) then Some v0 else dict_get k d.
Proof. unfold dict_get. cbn. by case_bool_decide. Qed.

Lemma dict_get_set_eq (k : type_key) (v : class) (d : registry) :
  dict_get k (dict_set k v d) = Some v.
Proof.
  unfold dict_set. destruct (dict_get k d) as [v0|] eqn:Hg.
  - revert Hg. induction d as [|[k0 v1] d IH]; [discriminate|].
    rewrite dict_get_cons. cbn [fmap list_fmap fst].
    case_bool_decide as Hk.
    + intros _. rewrite dict_get_cons. by rewrite bool_decide_eq_true_2.
    + intros Hg. rewrite dict_get_cons, bool_decide_eq_false_2 by done. auto.
  - revert Hg. induction d as [|[k0 v1] d IH]; cbn [app].
    + intros _. rewrite dict_get_cons. by rewrite bool_decide_eq_true_2.
    + rewrite !dict_get_cons. case_bool_decide; [discriminate | auto].
Qed.

Lemma dict_get_set_ne (k k' : type_key) (v : class) (d : registry) :
  k <> k' -> dict_get k' (dict_set k v d) = dict_get k' d.
Proof.
  intros Hne. unfold dict_set. destruct (dict_get k d) as [v0|].
  - induction d as [|[k0 v1] d IH]; [done|].
    cbn [fmap list_fmap fst]. case_bool_decide as Hk.
    + subst k0. rewrite !dict_get_cons, !bool_decide_eq_false_2 by done.
      apply IH.
    + rewrite !dict_get_cons. case_bool_decide; [done | apply IH].
  - induction d as [|[k0 v1] d IH]; cbn [app].
    + rewrite dict_get_cons. by rewrite bool_decide_eq_false_2.
    + rewrite !dict_get_cons. case_bool_decide; [done | apply IH].
Qed.

(** X9: [feed_mapping] makes the class the strategy of each type it declares,
    over whatever was registered for that type before, and leaves every
    other type as it was; a class that declares no type changes nothing. *)
Theorem feed_mapping_registers (subcls_ : class) (d : registry) :
  (forall t, cls_article_type subcls_ = Some t ->
             dict_get (ArticleKey t) (feed_mapping subcls_ d) = Some subcls_)
  /\ (forall f, cls_feed_type subcls_ = Some f ->
                dict_get (FeedKey f) (feed_mapping subcls_ d) = Some subcls_)
  /\ (forall k,
        ArticleKey <$> cls_article_type subcls_ <> Some k ->
        FeedKey <$> cls_feed_type subcls_ <> Some k ->
        dict_get k (feed_mapping subcls_ d) = dict_get k d)
  /\ (cls_article_type subcls_ = None -> cls_feed_type subcls_ = None ->
      feed_mapping subcls_ d = d).
Proof.
  unfold feed_mapping.
  destruct (cls_article_type subcls_) as [t|], (cls_feed_type subcls_) as [f|];
    cbn; repeat split; try discriminate; try done.
  - intros ? [= <-]. apply dict_get_set_eq.
  - intros ? [= <-]. by rewrite dict_get_set_ne, dict_get_set_eq.
  - intros k H1 H2. rewrite !dict_get_set_ne; congruence.
  - intros ? [= <-]. apply dict_get_set_eq.
  - intros k H1 _. rewrite dict_get_set_ne; congruence.
  - intros ? [= <-]. apply dict_get_set_eq.
  - intros k _ H2. rewrite dict_get_set_ne; congruence.
Qed.

Lemma feed_mapping_registers_reddit :
  cls_feed_type RedditContentGenerator = Some FeedType.reddit
  /\ dict_get (FeedKey FeedType.reddit)
       (feed_mapping RedditContentGenerator
          [(FeedKey FeedType.reddit, TruncatedContentGenerator)])
     = Some RedditContentGenerator.
Proof.
  split; [reflexivity|].
  apply (feed_mapping_registers RedditContentGenerator
           [(FeedKey FeedType.reddit, TruncatedContentGenerator)]).
  reflexivity.
Defined.

(** ** What the cache serves *)

Lemma cache_find_elem (key r : nat) (c : list (nat * nat)) :
  cache_find key c = Some r -> (key, r) ∈ c.
Proof.
  unfold cache_find. induction c as [|[k v] c IH]; cbn; [discriminate|].
  case_bool_decide as Hk; cbn in *.
  - intros [= <-]. subst k. left.
  - intros H. right. auto.
Qed.

Lemma cache_remove_elem (key : nat) (c : list (nat * nat)) (x : nat * nat) :
  x ∈ cache_remove key c -> x ∈ c.
Proof.
  unfold cache_remove. rewrite !list_elem_of_In, List.filter_In. tauto.
Qed.

Lemma removelast_elem (c : list (nat * nat)) (x : nat * nat) :
  x ∈ removelast c -> x ∈ c.
Proof.
  destruct c as [|y c]; [done|]. intros Hx.
  rewrite (app_removelast_last (0, 0) (l := y :: c)) by done.
  apply elem_of_app. by left.
Qed.

Lemma lookup_serves (known : list Article) (a : Article) (p : Process) :
  cache_serves known p ->
  cache_serves (a :: known) (snd (get_content_generator a p))
  /\ (exists a', a' ∈ a :: known /\ obj_id a' = obj_id a
                 /\ heap (snd (get_content_generator a p))
                    !! fst (get_content_generator a p)
                    = Some (get_content_generator_body a'))
  /\ exists more, heap (snd (get_content_generator a p)) = heap p ++ more.
Proof.
  intros (Hs & Hnd & Hlen).
  destruct (first_lookup_cached a p Hnd Hlen)
    as (_ & _ & _ & Hnd' & _ & Hlen').
  revert Hnd' Hlen'. unfold get_content_generator.
  destruct (cache_find (obj_id a) (cache p)) as [r|] eqn:Hf;
    cbn [fst snd heap cache]; intros Hnd' Hlen'.
  - apply cache_find_elem in Hf.
    destruct (Hs _ _ Hf) as (a' & Ha' & Hid & Hh).
    split; [|split].
    + split; [|done]. intros k r' [[= -> ->]|Hin]%elem_of_cons.
      * exists a'. split; [by right | done].
      * apply cache_remove_elem in Hin.
        destruct (Hs _ _ Hin) as (b & ? & ? & ?).
        exists b. split; [by right | done].
    + exists a'. split; [by right | done].
    + exists []. by rewrite app_nil_r.
  - split; [|split].
    + split; [|done]. intros k r' [[= -> ->]|Hin]%elem_of_cons.
      * exists a. split; [left|]. split; [done|].
        by apply list_lookup_middle.
      * assert ((k, r') ∈ cache p) as Hin'.
        { destruct (decide (length (cache p) < lru_maxsize));
            [done | by apply removelast_elem]. }
        destruct (Hs _ _ Hin') as (b & ? & ? & Hh).
        exists b. split; [by right|]. split; [done|].
        by apply lookup_app_l_Some.
    + exists a. split; [left|]. split; [done|].
      by apply list_lookup_middle.
    + by eexists.
Qed.

Lemma lookups_serve (l : list Article) :
  forall (known : list Article) (p : Process),
    cache_serves known p ->
    (forall a b, a ∈ l ++ known -> b ∈ l ++ known ->
                 obj_id a = obj_id b -> a = b) ->
    Forall2 (fun a r => heap (snd (lookups l p)) !! r
                        = Some (get_content_generator_body a))
      l (fst (lookups l p))
    /\ cache_serves (rev l ++ known) (snd (lookups l p))
    /\ exists more, heap (snd (lookups l p)) = heap p ++ more.
Proof.
  induction l as [|a l IH]; intros known p Hs Hinj.
  - cbn. split; [constructor|]. split; [done|]. exists []. by rewrite app_nil_r.
  - destruct (lookup_serves known a p Hs) as (Hs' & (a' & Ha' & Hid & Hh) & more & Hm).
    assert (a' = a) as ->.
    { apply Hinj; [|left|done].
      apply elem_of_cons in Ha' as [->|Ha']; [left|].
      right. apply elem_of_app. by right. }
    destruct (IH (a :: known) (snd (get_content_generator a p)) Hs')
      as (Hall & Hs'' & more' & Hm').
    { intros x y Hx Hy. apply Hinj.
      - apply elem_of_app in Hx as [Hx|[->|Hx]%elem_of_cons];
          [right; apply elem_of_app; by left | left
          | right; apply elem_of_app; by right].
      - apply elem_of_app in Hy as [Hy|[->|Hy]%elem_of_cons];
          [right; apply elem_of_app; by left | left
          | right; apply elem_of_app; by right]. }
    cbn [lookups].
    destruct (get_content_generator a p) as [r p'] eqn:Hg.
    cbn [fst snd] in *.
    destruct (lookups l p') as [rs p''] eqn:Hl. cbn [fst snd] in *.
    split; [|split].
    + constructor; [|done]. rewrite Hm'. by apply lookup_app_l_Some.
    + cbn [rev]. by rewrite <- app_assoc.
    + exists (more ++ more'). by rewrite Hm', Hm, app_assoc.
Qed.

(** X10: Called for articles that differ in their identity, starting from an
    empty cache, [get_content_generator] answers every call with an
    instance built for the very article it was called with, and the cache
    keeps one entry per article and at most 128 of them. *)
Theorem lookups_serve_the_article (l : list Article) :
  (forall a b, a ∈ l -> b ∈ l -> obj_id a = obj_id b -> a = b) ->
  Forall2 (fun a r => heap (snd (lookups l startup)) !! r
                      = Some (get_content_generator_body a))
    l (fst (lookups l startup))
  /\ NoDup (cache (snd (lookups l startup))).*1
  /\ length (cache (snd (lookups l startup))) <= lru_maxsize.
Proof.
  intros Hinj.
  destruct (lookups_serve l [] startup) as (Hall & (_ & Hnd & Hlen) & _).
  - split; [by intros k r ?%elem_of_nil|].
    split; [apply NoDup_nil_2 | cbn; unfold lru_maxsize; lia].
  - intros a b. rewrite app_nil_r. apply Hinj.
  - done.
Qed.

Lemma lookups_serve_the_article_samples :
  (forall a b, a ∈ [crosspost; video; crosspost] ->
               b ∈ [crosspost; video; crosspost] ->
               obj_id a = obj_id b -> a = b)
  /\ Forall2 (fun a r => heap (snd (lookups [crosspost; video; crosspost] startup))
                           !! r
                         = Some (get_content_generator_body a))
       [crosspost; video; crosspost]
       (fst (lookups [crosspost; video; crosspost] startup)).
Proof.
  assert (forall a b, a ∈ [crosspost; video; crosspost] ->
                      b ∈ [crosspost; video; crosspost] ->
                      obj_id a = obj_id b -> a = b) as H.
  { intros a b Ha Hb.
    repeat (apply elem_of_cons in Ha as [->|Ha]);
      repeat (apply elem_of_cons in Hb as [->|Hb]);
      try (by apply elem_of_nil in Ha); try (by apply elem_of_nil in Hb);
      by vm_compute. }
  split; [exact H|].
  apply (lookups_serve_the_article [crosspost; video; crosspost] H).
Defined.

(** ** How many instances are built *)

Lemma cache_remove_length_NoDup (key : nat) (c : list (nat * nat)) :
  NoDup c.*1 -> key ∈ c.*1 ->
  length c = S (length (cache_remove key c)).
Proof.
  induction c as [|[k v] c IH]; cbn [fmap list_fmap fst];
    [by intros _ ?%elem_of_nil|].
  intros [Hk Hnd]%NoDup_cons Hin.
  unfold cache_remove. cbn [List.filter fst]. fold (cache_remove key c).
  case_bool_decide as Hkey; cbn [negb length].
  - subst k. f_equal.
    assert (cache_remove key c = c) as ->; [|done].
    clear IH Hnd Hin. induction c as [|[k' v'] c IH]; [done|].
    cbn [fmap list_fmap fst] in Hk. apply not_elem_of_cons in Hk as [Hne Hk].
    unfold cache_remove. cbn [List.filter fst]. fold (cache_remove key c).
    rewrite bool_decide_eq_false_2 by done. cbn [negb]. by rewrite IH.
  - apply elem_of_cons in Hin as [->|Hin]; [done|]. f_equal. auto.
Qed.

Lemma lookup_holds (seen : list nat) (a : Article) (p : Process) :
  cache_holds seen p ->
  length (remove_dups (seen ++ [obj_id a])) <= lru_maxsize ->
  cache_holds (seen ++ [obj_id a]) (snd (get_content_generator a p)).
Proof.
  intros (Hnd & Hkeys & Hheap) Hb. unfold get_content_generator.
  destruct (cache_find (obj_id a) (cache p)) as [r|] eqn:Hf;
    cbn [snd heap cache].
  - assert (obj_id a ∈ (cache p).*1) as Hin.
    { destruct (decide (obj_id a ∈ (cache p).*1)) as [|Hn]; [done|].
      apply cache_find_None in Hn. congruence. }
    split; [|split]; cbn [cache heap fmap list_fmap fst].
    + apply NoDup_cons. split; [|by apply cache_remove_NoDup].
      rewrite cache_remove_keys. tauto.
    + intros k. rewrite elem_of_cons, cache_remove_keys, elem_of_app, Hkeys.
      rewrite list_elem_of_singleton. apply Hkeys in Hin.
      destruct (decide (k = obj_id a)) as [->|]; tauto.
    + cbn [length]. rewrite Hheap. by apply cache_remove_length_NoDup.
  - apply cache_find_None in Hf.
    assert (length (cache p) < lru_maxsize) as Hroom.
    { assert (length (obj_id a :: (cache p).*1)
              <= length (remove_dups (seen ++ [obj_id a]))) as Hd.
      { apply distinct_bound; [by apply NoDup_cons|].
        intros k. rewrite elem_of_cons, elem_of_app, list_elem_of_singleton.
        rewrite Hkeys. tauto. }
      cbn [length] in Hd. rewrite length_fmap in Hd. lia. }
    rewrite decide_True by done.
    split; [|split]; cbn [cache heap fmap list_fmap fst].
    + by apply NoDup_cons.
    + intros k. rewrite elem_of_cons, elem_of_app, list_elem_of_singleton.
      rewrite Hkeys. tauto.
    + rewrite length_app. cbn [length]. lia.
Qed.

Lemma lookups_hold (l : list Article) :
  forall (seen : list nat) (p : Process),
    cache_holds seen p ->
    length (remove_dups (seen ++ (obj_id <$> l))) <= lru_maxsize ->
    cache_holds (seen ++ (obj_id <$> l)) (snd (lookups l p)).
Proof.
  induction l as [|a l IH]; intros seen p Hinv Hb.
  - cbn. by rewrite app_nil_r.
  - rewrite lookups_cons.
    replace (seen ++ (obj_id <$> a :: l))
      with ((seen ++ [obj_id a]) ++ (obj_id <$> l)) in *
      by (by rewrite <- app_assoc).
    apply IH; [|done].
    apply lookup_holds; [done|].
    etrans; [|exact Hb].
    apply distinct_bound; [apply NoDup_remove_dups|].
    intros k Hk. rewrite elem_of_remove_dups in Hk.
    rewrite elem_of_app. by left.
Qed.

(** X11: As long as no more than 128 distinct articles are looked up, the body
    of [get_content_generator] runs once per article: the instances built
    are as many as the articles, however often each is asked for. *)
Theorem each_article_built_once (l : list Article) :
  length (remove_dups (obj_id <$> l)) <= lru_maxsize ->
  length (heap (snd (lookups l startup))) = length (remove_dups (obj_id <$> l)).
Proof.
  intros Hb.
  destruct (lookups_hold l [] startup) as (Hnd & Hkeys & Hheap).
  - split; [apply NoDup_nil_2|]. split; [done|reflexivity].
  - done.
  - rewrite Hheap, <- (length_fmap fst).
    apply Permutation_length, NoDup_Permutation;
      [done | apply NoDup_remove_dups|].
    intros k. rewrite elem_of_remove_dups. apply Hkeys.
Qed.

Lemma each_article_built_once_samples :
  length (remove_dups (obj_id <$> [crosspost; video; crosspost; video; teaser]))
  <= lru_maxsize
  /\ length (heap (snd (lookups [crosspost; video; crosspost; video; teaser]
                          startup)))
     = length (remove_dups
                 (obj_id <$> [crosspost; video; crosspost; video; teaser])).
Proof.
  assert (length (remove_dups
                    (obj_id <$> [crosspost; video; crosspost; video; teaser]))
          <= lru_maxsize) as H
    by (unfold lru_maxsize; vm_compute; lia).
  split; [exact H|].
  exact (each_article_built_once [crosspost; video; crosspost; video; teaser] H).
Defined.

(** ** The video id *)

Section Capturing.
Variable u : N -> bool.
Variable P : gmap nat pystr -> Prop.

(** As [rmatch_inv], for what survives the captures of the pattern only. *)
Lemma rmatch_inv_on (r : regex) :
  (forall g n v, n ∈ captures r -> P g -> P (<[n := v]> g)) ->
  forall st k res,
    rmatch u r st k = Some res -> P (groups st) ->
    exists st', P (groups st') /\ k st' = Some res.
Proof.
  induction r as [| | |a|l|r1 IH1 r2 IH2|r1 IH1 r2 IH2|r1 IH1|r1 IH1|n r1 IH1];
    intros Hins st k res Hm HP; cbn [rmatch] in Hm; cbn [captures] in Hins.
  - eauto.
  - destruct (decide (pos st = 0)); [eauto | discriminate].
  - destruct (rest st) as [|c [|d t]]; [eauto | | discriminate].
    destruct (c =? 10)%N; [eauto | discriminate].
  - destruct (rest st) as [|c t]; [discriminate|].
    destruct (atom_matches u a c); [|discriminate].
    exists (advance st t). eauto.
  - destruct (rest st) as [|c t]; [discriminate|].
    destruct (existsb _ l); [|discriminate].
    exists (advance st t). eauto.
  - assert (forall g n v, n ∈ captures r1 -> P g -> P (<[n := v]> g)) as H1
      by (intros; apply Hins; [apply elem_of_app; by left | done]).
    assert (forall g n v, n ∈ captures r2 -> P g -> P (<[n := v]> g)) as H2
      by (intros; apply Hins; [apply elem_of_app; by right | done]).
    apply (IH1 H1) in Hm as (st1 & HP1 & Hm); [|done]. eauto.
  - assert (forall g n v, n ∈ captures r1 -> P g -> P (<[n := v]> g)) as H1
      by (intros; apply Hins; [apply elem_of_app; by left | done]).
    assert (forall g n v, n ∈ captures r2 -> P g -> P (<[n := v]> g)) as H2
      by (intros; apply Hins; [apply elem_of_app; by right | done]).
    destruct (rmatch u r1 st k) eqn:E; cbn in Hm.
    + injection Hm as ->. eauto.
    + eauto.
  - destruct (rmatch u r1 st k) eqn:E; cbn in Hm.
    + injection Hm as ->. eauto.
    + eauto.
  - remember (length (rest st)) as fuel eqn:Hf. clear Hf.
    revert st Hm HP.
    induction fuel as [|fuel IHf]; intros st Hm HP; cbn [iterate] in Hm;
      apply (IH1 Hins) in Hm as (st1 & HP1 & Hm); [eauto|done| |done].
    destruct (decide (pos st < pos st1)); [|eauto].
    destruct (iterate _ k fuel st1) eqn:E; cbn in Hm; [|eauto].
    injection Hm as ->. eauto.
  - assert (forall g n v, n ∈ captures r1 -> P g -> P (<[n := v]> g)) as H1
      by (intros; apply Hins; [by right | done]).
    apply (IH1 H1) in Hm as (st1 & HP1 & Hm); [|done].
    eexists. split; [|exact Hm]. cbn. apply Hins; [left | done].
Qed.
End Capturing.

Lemma rmatch_Cat_reaches (u : N -> bool) (r1 r2 : regex) st k res :
  rmatch u (Cat r1 r2) st k = Some res ->
  exists st', rmatch u r2 st' k = Some res.
Proof. cbn [rmatch]. apply rmatch_reaches. Qed.

(** What [[...]+] consumed: at least one character, all of the set. *)
Lemma iterate_OneOf (u : N -> bool) (l : list atom) k res :
  forall fuel st,
    iterate (rmatch u (OneOf l)) k fuel st = Some res ->
    exists w t,
      w <> [] /\ rest st = w ++ t
      /\ Forall (fun c => existsb (fun a => atom_matches u a c) l = true) w
      /\ k {| pos := pos st + length w; rest := t; groups := groups st |}
         = Some res.
Proof.
  induction fuel as [|fuel IH]; intros st Hm; cbn [iterate rmatch] in Hm;
    destruct (rest st) as [|c t] eqn:Hr; try discriminate;
    destruct (existsb _ l) eqn:Hc; try discriminate.
  - exists [c], t. repeat split; [done | by repeat constructor|].
    cbn [length]. by rewrite Nat.add_1_r.
  - cbn [advance pos] in Hm.
    destruct (decide (pos st < S (pos st))) as [_|]; [|lia].
    destruct (iterate _ k fuel (advance st t)) as [res'|] eqn:E; cbn in Hm.
    + injection Hm as ->. apply IH in E as (w & t' & Hw & Ht & Hall & Hk).
      cbn [advance rest pos groups] in *. subst t.
      exists (c :: w), t'. repeat split; [done | by constructor|].
      cbn [length]. by rewrite Nat.add_succ_r.
    + exists [c], t. repeat split; [done | by repeat constructor|].
      cbn [length]. by rewrite Nat.add_1_r.
Qed.

Lemma rmatch_Cat_Group_Plus (u : N -> bool) (n : nat) (l : list atom)
    (r2 : regex) st k :
  rmatch u (Cat (Group n (Plus (OneOf l))) r2) st k
  = iterate (rmatch u (OneOf l))
      (fun st' =>
         rmatch u r2
           {| pos := pos st';
              rest := rest st';
              groups := <[n := take (pos st' - pos st) (rest st)]>
                          (groups st') |} k)
      (length (rest st)) st.
Proof. reflexivity. Qed.

(** X12: The video id [generate] hands out is never empty and holds nothing but
    word characters and dashes, whatever the link. *)
Theorem YOUTUBE_RE_video_id (u : N -> bool) (subject : pystr)
    (m : gmap nat pystr) :
  re_match u YOUTUBE_RE subject = Some m ->
  exists videoId : pystr,
    m !! 5 = Some videoId
    /\ videoId <> []
    /\ Forall (fun c => video_id_char u c = true) videoId.
Proof.
  unfold re_match. intros Hm.
  destruct (rmatch u YOUTUBE_RE _ Some) as [res|] eqn:E; [|discriminate].
  injection Hm as <-. unfold YOUTUBE_RE in E.
  do 5 (apply rmatch_Cat_reaches in E as (? & E)).
  unfold word_or_dash in E. rewrite rmatch_Cat_Group_Plus in E.
  apply iterate_OneOf in E as (w & t & Hw & Ht & Hall & E).
  cbn [pos rest groups] in E.
  apply (rmatch_inv_on u (fun g => g !! 5 = Some w)) in E
    as (st' & H5 & [= ->]).
  - exists w. by repeat split.
  - intros g n v Hn Hg. cbn in Hn.
    rewrite lookup_insert_ne; [done|].
    intros ->.
    repeat (apply elem_of_cons in Hn as [Hn|Hn]; [discriminate|]).
    by apply elem_of_nil in Hn.
  - cbn. rewrite lookup_insert_eq, Ht. f_equal.
    replace (pos x3 + length w - pos x3) with (length w) by lia.
    by rewrite take_app_length.
Qed.

Lemma YOUTUBE_RE_video_id_video :
  re_match (fun _ => false) YOUTUBE_RE (link video)
  = Some (<[5 := str "dQw4w9WgXcQ"]>
            (<[4 := str "/watch?v="]>
               (<[3 := str "youtube.com"]>
                  (<[2 := str "www."]> {[1 := str "https://"]}))))
  /\ exists videoId : pystr,
       (<[5 := str "dQw4w9WgXcQ"]>
          (<[4 := str "/watch?v="]>
             (<[3 := str "youtube.com"]>
                (<[2 := str "www."]> ({[1 := str "https://"]} : gmap nat pystr)))))
       !! 5 = Some videoId
       /\ videoId <> []
       /\ Forall (fun c => video_id_char (fun _ => false) c = true) videoId.
Proof.
  split; [by vm_compute|].
  apply (YOUTUBE_RE_video_id (fun _ => false) (link video)). by vm_compute.
Defined.

(** ** Links to a video *)

Section Links.
Variable u : N -> bool.

Lemma skip_nil st : skip st [] (rest st) = st.
Proof. destruct st. unfold skip. cbn. by rewrite Nat.add_0_r. Qed.

Lemma skip_advance st c w t :
  skip (advance st (w ++ t)) w t = skip st (c :: w) t.
Proof. unfold skip, advance. cbn. f_equal. lia. Qed.

Lemma advance_skip st c t : advance st t = skip st [c] t.
Proof. unfold skip, advance. cbn. f_equal. lia. Qed.

Lemma rmatch_Cat r1 r2 st k :
  rmatch u (Cat r1 r2) st k = rmatch u r1 st (fun st' => rmatch u r2 st' k).
Proof. reflexivity. Qed.

Lemma rmatch_Group n r st k :
  rmatch u (Group n r) st k
  = rmatch u r st (fun st' =>
      k {| pos := pos st'; rest := rest st';
           groups := <[n := take (pos st' - pos st) (rest st)]> (groups st') |}).
Proof. reflexivity. Qed.

Lemma rmatch_Bol st k : pos st = 0 -> rmatch u Bol st k = k st.
Proof. intros H. cbn. by rewrite decide_True. Qed.

Lemma rmatch_Eol st k : rest st = [] -> rmatch u Eol st k = k st.
Proof. intros H. cbn. by rewrite H. Qed.

Lemma rmatch_Chr a c t st k :
  rest st = c :: t -> atom_matches u a c = true ->
  rmatch u (Chr a) st k = k (skip st [c] t).
Proof. intros Hr Hc. cbn. rewrite Hr, Hc. by rewrite (advance_skip _ c). Qed.

Lemma rmatch_lits l :
  forall st k t,
    rest st = l ++ t -> rmatch u (lits l) st k = k (skip st l t).
Proof.
  induction l as [|c l IH]; intros st k t Hr.
  - cbn in *. by rewrite <- Hr, skip_nil.
  - destruct l as [|d l].
    + cbn [lits]. apply rmatch_Chr; [done | cbn; apply N.eqb_refl].
    + change (lits (c :: d :: l)) with (Cat (Chr (Lit c)) (lits (d :: l))).
      rewrite rmatch_Cat.
      rewrite (rmatch_Chr _ c ((d :: l) ++ t)); [|done | cbn; apply N.eqb_refl].
      rewrite (IH _ _ t) by done.
      rewrite <- (advance_skip _ c). by rewrite (skip_advance _ c).
Qed.

Lemma rmatch_lits_prefix l :
  forall st k res,
    rmatch u (lits l) st k = Some res -> exists t, rest st = l ++ t.
Proof.
  induction l as [|c l IH]; intros st k res Hm; [by eexists|].
  destruct l as [|d l].
  - cbn in Hm. destruct (rest st) as [|c' t]; [discriminate|].
    destruct (c' =? c)%N eqn:E; [|discriminate].
    apply N.eqb_eq in E as ->. by exists t.
  - change (lits (c :: d :: l)) with (Cat (Chr (Lit c)) (lits (d :: l))) in Hm.
    cbn [rmatch] in Hm.
    destruct (rest st) as [|c' t]; [discriminate|].
    cbn [atom_matches] in Hm.
    destruct (c' =? c)%N eqn:E; [|discriminate].
    apply N.eqb_eq in E as ->.
    apply IH in Hm as (t' & Ht). cbn in Ht. exists t'. by rewrite Ht.
Qed.

Lemma rmatch_lits_None l st k :
  (forall t, rest st <> l ++ t) -> rmatch u (lits l) st k = None.
Proof.
  intros H. destruct (rmatch u (lits l) st k) eqn:E; [|done].
  apply rmatch_lits_prefix in E as (t & Ht). by destruct (H t).
Qed.

Lemma rmatch_Opt_take r st k res :
  rmatch u r st k = Some res -> rmatch u (Opt r) st k = Some res.
Proof. intros H. cbn. by rewrite H. Qed.

Lemma rmatch_Opt_skip r st k :
  rmatch u r st k = None -> rmatch u (Opt r) st k = k st.
Proof. intros H. cbn. by rewrite H. Qed.

Lemma rmatch_Alt_left r1 r2 st k res :
  rmatch u r1 st k = Some res -> rmatch u (Alt r1 r2) st k = Some res.
Proof. intros H. cbn. by rewrite H. Qed.

Lemma rmatch_Alt_right r1 r2 st k :
  rmatch u r1 st k = None -> rmatch u (Alt r1 r2) st k = rmatch u r2 st k.
Proof. intros H. cbn. by rewrite H. Qed.

Lemma iterate_unfold body k fuel st :
  iterate body k fuel st
  = body st (fun st' =>
      match fuel with
      | 0 => k st'
      | S fuel' =>
          if decide (pos st < pos st')
          then orelse (iterate body k fuel' st') (k st')
          else k st'
      end).
Proof. by destruct fuel. Qed.

Lemma rmatch_OneOf l st k :
  rmatch u (OneOf l) st k
  = match rest st with
    | c :: t => if in_set u l c then k (advance st t) else None
    | [] => None
    end.
Proof. reflexivity. Qed.

Lemma iterate_stuck l k fuel st :
  stops u l (rest st) -> iterate (rmatch u (OneOf l)) k fuel st = None.
Proof.
  intros H. rewrite iterate_unfold, rmatch_OneOf.
  destruct (rest st) as [|c t]; [done|]. cbn in H. by rewrite H.
Qed.

Lemma iterate_run l k res (w : pystr) :
  forall fuel st t,
    w <> [] -> Forall (fun c => in_set u l c = true) w ->
    rest st = w ++ t -> stops u l t -> length w <= S fuel ->
    k (skip st w t) = Some res ->
    iterate (rmatch u (OneOf l)) k fuel st = Some res.
Proof.
  induction w as [|c w IH]; intros fuel st t Hw Hall Hr Ht Hlen Hk; [done|].
  apply Forall_cons in Hall as [Hc Hall].
  rewrite iterate_unfold, rmatch_OneOf, Hr. cbn [app]. rewrite Hc.
  destruct fuel as [|fuel].
  - destruct w; [|cbn in Hlen; lia]. cbn [app]. by rewrite (advance_skip _ c).
  - cbn [advance pos].
    destruct (decide (pos st < S (pos st))) as [_|]; [|lia].
    destruct w as [|d w].
    + cbn [app]. rewrite iterate_stuck by done. cbn.
      by rewrite (advance_skip _ c).
    + rewrite (IH fuel (advance st ((d :: w) ++ t)) t); [done | done | done | done | done | |].
      * cbn in Hlen |- *. lia.
      * by rewrite (skip_advance _ c).
Qed.

Lemma iterate_None l k :
  forall fuel st,
    (forall w t, w <> [] -> rest st = w ++ t -> k (skip st w t) = None) ->
    iterate (rmatch u (OneOf l)) k fuel st = None.
Proof.
  induction fuel as [|fuel IH]; intros st Hk;
    rewrite iterate_unfold, rmatch_OneOf;
    destruct (rest st) as [|c t] eqn:Hr; try done;
    destruct (in_set u l c); try done.
  - rewrite (advance_skip _ c). by apply Hk.
  - cbn [advance pos].
    destruct (decide (pos st < S (pos st))) as [_|]; [|lia].
    rewrite IH.
    + cbn. rewrite (advance_skip _ c). by apply Hk.
    + intros w t' Hw Ht. cbn in Ht. subst t.
      rewrite (skip_advance _ c). by apply Hk.
Qed.

Lemma rmatch_Plus_run l st k res w t :
  w <> [] -> Forall (fun c => in_set u l c = true) w ->
  rest st = w ++ t -> stops u l t ->
  k (skip st w t) = Some res ->
  rmatch u (Plus (OneOf l)) st k = Some res.
Proof.
  intros Hw Hall Hr Ht Hk. cbn [rmatch].
  apply (iterate_run l k res w _ st t); try done.
  rewrite Hr, length_app. lia.
Qed.

(** [[...]+] followed by a literal that the subject does not hold. *)
Lemma rmatch_Plus_lits_None l q l' st k :
  Forall (fun c => c <> q) (rest st) ->
  rmatch u (Cat (Plus (OneOf l)) (lits (q :: l'))) st k = None.
Proof.
  intros Hq. rewrite rmatch_Cat. cbn [rmatch]. apply iterate_None.
  intros w t Hw Hr. apply rmatch_lits_None. intros t'. cbn [skip rest].
  intros ->. rewrite Hr in Hq. apply Forall_app in Hq as [_ Hq].
  cbn in Hq. by apply Forall_cons in Hq as [? _].
Qed.
End Links.

Ltac det :=
  repeat first
    [ rewrite rmatch_Cat
    | rewrite rmatch_Group
    | rewrite rmatch_Bol by reflexivity
    | rewrite rmatch_Eol by reflexivity
    | erewrite rmatch_lits by (cbn [rest app]; reflexivity)
    | erewrite rmatch_Chr by reflexivity
    | progress cbv beta
    | progress cbn [skip pos rest groups length Nat.add] ].

Ltac subject s :=
  let r := eval cbv -[lits] in YOUTUBE_RE in change YOUTUBE_RE with r;
  let l := eval cbv in (str s) in change (str s) with l;
  cbn [app].

Lemma watch_link (u : N -> bool) (id : pystr) :
  id <> [] -> Forall (fun c => video_id_char u c = true) id ->
  exists m,
    re_match u YOUTUBE_RE (str "https://www.youtube.com/watch?v=" ++ id) = Some m
    /\ m !! 5 = Some id.
Proof.
  intros Hid Hall. unfold re_match.
  subject "https://www.youtube.com/watch?v=".
  assert (exists res,
    rmatch u
      ltac:(let r := eval cbv -[lits] in YOUTUBE_RE in exact r)
      {| pos := 0;
         rest := ltac:(let l := eval cbv in (str "https://www.youtube.com/watch?v=") in
                       let l' := eval cbn [app] in (l ++ id) in exact l');
         groups := ∅ |} Some = Some res
    /\ groups res !! 5 = Some id) as (res & -> & H5); [|by eexists].
  eexists. split.
  - det. apply rmatch_Opt_take. det. apply rmatch_Opt_take. det.
    apply rmatch_Opt_take. det.
    apply rmatch_Opt_take. det. apply rmatch_Alt_left. det.
    apply rmatch_Alt_left. det.
    apply rmatch_Opt_take. apply rmatch_Alt_left. det.
    eapply (rmatch_Plus_run u _ _ _ _ [119; 97; 116; 99; 104]%N);
      [done | by repeat constructor | cbn [rest app]; reflexivity
      | reflexivity |].
    det.
    eapply (rmatch_Plus_run u _ _ _ _ id []);
      [done | exact Hall | cbn [rest]; by rewrite app_nil_r | exact I |].
    det. rewrite rmatch_Opt_skip by reflexivity. det.
    reflexivity.
  - cbn [groups]. rewrite lookup_insert_eq. f_equal.
    apply take_ge. lia.
Qed.

Lemma in_set_differs (u : N -> bool) (l : list atom) (q : N) (s : pystr) :
  in_set u l q = false ->
  Forall (fun c => in_set u l c = true) s -> Forall (fun c => c <> q) s.
Proof.
  intros Hq Hs. eapply Forall_impl; [exact Hs|].
  intros c Hc ->. congruence.
Qed.

Lemma not_prefix (u : N -> bool) (l : list atom) (s pre : pystr) (q : N) :
  Forall (fun c => in_set u l c = true) s ->
  q ∈ pre -> in_set u l q = false ->
  forall t, s <> pre ++ t.
Proof.
  intros Hs Hq Hn t ->. apply Forall_app in Hs as [Hs _].
  rewrite Forall_forall in Hs. specialize (Hs q Hq). congruence.
Qed.

Lemma embed_link (u : N -> bool) (id : pystr) :
  id <> [] -> Forall (fun c => video_id_char u c = true) id ->
  exists m,
    re_match u YOUTUBE_RE (str "https://www.youtube.com/embed/" ++ id) = Some m
    /\ m !! 5 = Some id.
Proof.
  intros Hid Hall. unfold re_match.
  subject "https://www.youtube.com/embed/".
  match goal with
  | |- exists m, groups <$> ?x = Some m /\ _ =>
      assert (exists res, x = Some res /\ groups res !! 5 = Some id)
        as (res & -> & H5); [|by eexists]
  end.
  eexists. split.
  - det. apply rmatch_Opt_take. det. apply rmatch_Opt_take. det.
    apply rmatch_Opt_take. det.
    apply rmatch_Opt_take. det. apply rmatch_Alt_left. det.
    apply rmatch_Alt_left. det.
    apply rmatch_Opt_take.
    rewrite rmatch_Alt_right.
    2:{ apply rmatch_Plus_lits_None. cbn [rest].
        repeat (apply Forall_cons; split; [done|]).
        by apply (in_set_differs u [Word; Lit 45]). }
    apply rmatch_Alt_left. det.
    eapply (rmatch_Plus_run u _ _ _ _ id []);
      [done | exact Hall | cbn [rest]; by rewrite app_nil_r | exact I |].
    det. rewrite rmatch_Opt_skip by reflexivity. det.
    reflexivity.
  - cbn [groups]. rewrite lookup_insert_eq. f_equal.
    apply take_ge. lia.
Qed.

Lemma short_link (u : N -> bool) (id : pystr) :
  id <> [] -> Forall (fun c => video_id_char u c = true) id ->
  exists m,
    re_match u YOUTUBE_RE (str "https://youtu.be/" ++ id) = Some m
    /\ m !! 5 = Some id.
Proof.
  intros Hid Hall. unfold re_match.
  subject "https://youtu.be/".
  match goal with
  | |- exists m, groups <$> ?x = Some m /\ _ =>
      assert (exists res, x = Some res /\ groups res !! 5 = Some id)
        as (res & -> & H5); [|by eexists]
  end.
  eexists. split.
  - det. apply rmatch_Opt_take. det. apply rmatch_Opt_take. det.
    apply rmatch_Opt_take. det.
    rewrite rmatch_Opt_skip by reflexivity. det.
    rewrite rmatch_Alt_right by reflexivity. det.
    rewrite rmatch_Opt_skip.
    2:{ rewrite rmatch_Alt_right.
        2:{ apply rmatch_Plus_lits_None. cbn [rest].
            by apply (in_set_differs u [Word; Lit 45]). }
        rewrite rmatch_Alt_right.
        2:{ apply rmatch_lits_None. cbn [rest].
            apply (not_prefix u [Word; Lit 45] _ _ 47%N);
              [done | | done].
            do 5 right. left. }
        apply rmatch_lits_None. cbn [rest].
        apply (not_prefix u [Word; Lit 45] _ _ 47%N); [done | | done].
        right. left. }
    det.
    eapply (rmatch_Plus_run u _ _ _ _ id []);
      [done | exact Hall | cbn [rest]; by rewrite app_nil_r | exact I |].
    det. rewrite rmatch_Opt_skip by reflexivity. det.
    reflexivity.
  - cbn [groups]. rewrite lookup_insert_eq. f_equal.
    apply take_ge. lia.
Qed.

(** X13: For an embedded article whose link is one of the usual links to a
    video (watch page, embed page, short link) followed by an id made of
    word characters and dashes, [generate] hands out exactly that id. *)
Theorem embedded_generate_video_links (w : World) (st : State)
    (prefix id : pystr) :
  cls (self st) = EmbeddedContentGenerator ->
  article_type (article (self st)) = Some ArticleType.embedded ->
  prefix ∈ video_link_prefixes ->
  id <> [] ->
  Forall (fun c => video_id_char (unicode_isalnum w) c = true) id ->
  link (article (self st)) = prefix ++ id ->
  fst (generate w st)
  = Return (true,
            <["videoId" := PyStr id]>
              (<["player" := PyStr (str "youtube")]>
                 {["type" := PyStr (str "embedded")]})).
Proof.
  intros Hc Ht Hp Hid Hall Hl.
  assert (fst (generate w st) = fst (EmbeddedContentGenerator_generate w st))
    as -> by (unfold generate, bind at 1, get_self; by rewrite Hc).
  rewrite embedded_generate_eq by done. rewrite Hl.
  assert (exists m,
            re_match (unicode_isalnum w) YOUTUBE_RE (prefix ++ id) = Some m
            /\ m !! 5 = Some id) as (m & -> & H5).
  { unfold video_link_prefixes in Hp.
    apply elem_of_cons in Hp as [->|Hp]; [by apply watch_link|].
    apply elem_of_cons in Hp as [->|Hp]; [by apply embed_link|].
    apply elem_of_cons in Hp as [->|Hp]; [by apply short_link|].
    by apply elem_of_nil in Hp. }
  by rewrite H5.
Qed.

Lemma embedded_generate_video_links_video :
  (cls (self (fresh video)) = EmbeddedContentGenerator
   /\ article_type (article (self (fresh video))) = Some ArticleType.embedded
   /\ str "https://www.youtube.com/watch?v=" ∈ video_link_prefixes
   /\ str "dQw4w9WgXcQ" <> []
   /\ Forall (fun c => video_id_char (unicode_isalnum offline) c = true)
        (str "dQw4w9WgXcQ")
   /\ link (article (self (fresh video)))
      = str "https://www.youtube.com/watch?v=" ++ str "dQw4w9WgXcQ")
  /\ fst (generate offline (fresh video))
     = Return (true,
               <["videoId" := PyStr (str "dQw4w9WgXcQ")]>
                 (<["player" := PyStr (str "youtube")]>
                    {["type" := PyStr (str "embedded")]})).
Proof.
  assert (str "https://www.youtube.com/watch?v=" ∈ video_link_prefixes) as H3
    by left.
  assert (str "dQw4w9WgXcQ" <> []) as H4 by discriminate.
  assert (Forall (fun c => video_id_char (unicode_isalnum offline) c = true)
            (str "dQw4w9WgXcQ")) as H5 by (by repeat constructor).
  split; [by repeat split|].
  exact (embedded_generate_video_links offline (fresh video)
           (str "https://www.youtube.com/watch?v=") (str "dQw4w9WgXcQ")
           eq_refl eq_refl H3 H4 H5 eq_refl).
Defined.

(** X14: [is_embedded_link] tells whether [generate] of the embedded strategy
    will have a content to hand out: it finds a match exactly when the
    content generated for an embedded article with that link is not
    empty. *)
Theorem is_embedded_link_generate (w : World) (st : State) :
  article_type (article (self st)) = Some ArticleType.embedded ->
  exists generated : GeneratedContent,
    fst (EmbeddedContentGenerator_generate w st) = Return (true, generated)
    /\ (is_Some (is_embedded_link (unicode_isalnum w) (link (article (self st))))
        <-> generated <> ∅).
Proof.
  intros Ht. rewrite embedded_generate_eq by done. unfold is_embedded_link.
  destruct (re_match _ YOUTUBE_RE _) as [m|]; eexists; (split; [reflexivity|]).
  - split; [intros _; apply insert_non_empty | by eexists].
  - split; [by intros [? ?] | done].
Qed.

Lemma is_embedded_link_generate_video :
  article_type (article (self (fresh video))) = Some ArticleType.embedded
  /\ exists generated : GeneratedContent,
       fst (EmbeddedContentGenerator_generate offline (fresh video))
       = Return (true, generated)
       /\ (is_Some (is_embedded_link (unicode_isalnum offline)
                      (link (article (self (fresh video)))))
           <-> generated <> ∅).
Proof.
  split; [reflexivity|].
  apply (is_embedded_link_generate offline (fresh video)). reflexivity.
Defined.

(** ** Exceptions *)

Lemma run_calls_same_article (w : World) (calls : list call) (st : State) :
  cls (self (run_calls w calls st)) = cls (self st)
  /\ article (self (run_calls w calls st)) = article (self st).
Proof.
  revert st. induction calls as [|c calls IH]; intros st; [done|].
  cbn [run_calls foldl]. fold (run_calls w calls (run_call w c st)).
  destruct (IH (run_call w c st)) as [-> ->].
  destruct c; cbn [run_call].
  - by destruct (generate_one_call w st) as (? & ? & _).
  - by destruct (get_vector_one_call w st) as (? & ? & _).
Qed.

(** X15: On the instance the registry builds for an article, whatever was
    called on it before, [generate] raises in one case only: the article
    is an image without title and body, and the exception is the
    TypeError of the slice. *)
Theorem generate_raises_only_for_untitled_images (w : World) (a : Article)
    (calls : list call) (e : exn) :
  fst (generate w (run_calls w calls (fresh a))) = Raise e ->
  article_type a = Some ArticleType.image
  /\ py_or (title a) (content a) = PyNone
  /\ e = TypeError.
Proof.
  intros Hr.
  destruct (run_calls_same_article w calls (fresh a)) as [Hc Ha].
  cbn [fresh self] in Hc, Ha. rewrite get_content_generator_body_new in Hc, Ha.
  cbn [new cls article] in Hc, Ha.
  apply generate_raises_only_untitled in Hr as (Hi & Ht & He).
  - rewrite Ha in Ht. rewrite Hc in Hi.
    split; [by apply resolution_order_image | done].
  - by rewrite Hc, Ha.
Qed.

Lemma generate_raises_only_for_untitled_images_sample :
  fst (generate offline (run_calls offline [GetVector] (fresh untitled_image)))
  = Raise TypeError
  /\ article_type untitled_image = Some ArticleType.image
  /\ py_or (title untitled_image) (content untitled_image) = PyNone
  /\ TypeError = TypeError.
Proof.
  split; [reflexivity|].
  apply (generate_raises_only_for_untitled_images offline untitled_image
           [GetVector] TypeError).
  reflexivity.
Defined.

(** ** The vector *)

(** X6: on an instance without a page, [get_vector] asks goose once for
    the link of the article; when goose answers with a page it returns what
    [to_vector] makes of the infos noted of that page and of the page, and
    the instance keeps both; when goose answers with nothing or raises (one
    error is logged then) it returns nothing and the instance has no
    page. *)
Theorem get_vector_after_fetch (w : World) (st : State) :
  _page (self st) = None ->
  let target := link (article (self st)) in
  let st' := snd (ContentGenerator_get_vector w st) in
  match goose_answer w st with
  | Return (Some page) =>
      fst (ContentGenerator_get_vector w st)
      = Return (to_vector w (page_infos page (extracted_infos (self st))) page)
      /\ _page (self st') = Some page
      /\ extracted_infos (self st') = page_infos page (extracted_infos (self st))
      /\ trace st' = trace st ++ [GooseExtract target]
  | Return None =>
      fst (ContentGenerator_get_vector w st) = Return None
      /\ _page (self st') = None
      /\ trace st' = trace st ++ [GooseExtract target]
  | Raise _ =>
      fst (ContentGenerator_get_vector w st) = Return None
      /\ _page (self st') = None
      /\ trace st' = trace st ++ [GooseExtract target; Log ERROR]
  end.
Proof.
  intros Hp. unfold goose_answer, ContentGenerator_get_vector.
  rewrite lazy_fetch. unfold fetched. rewrite Hp.
  unfold ContentGenerator__get_goose, page_infos. run.
  destruct (goose_extract w _ _) as [[page|]|e]; cbn.
  - rewrite bool_decide_eq_true_2 by apply insert_non_empty. by repeat split.
  - by repeat split.
  - rewrite Hp. cbn. rewrite Hp. cbn. repeat split; [done|].
    by rewrite <- app_assoc.
Qed.

Lemma get_vector_after_fetch_teaser :
  _page (self (fresh teaser)) = None
  /\ goose_answer online (fresh teaser) = Return (Some story_page)
  /\ fst (ContentGenerator_get_vector online (fresh teaser))
     = Return (to_vector online
                 (page_infos story_page (extracted_infos (self (fresh teaser))))
                 story_page)
  /\ _page (self (snd (ContentGenerator_get_vector online (fresh teaser))))
     = Some story_page
  /\ extracted_infos (self (snd (ContentGenerator_get_vector online (fresh teaser))))
     = page_infos story_page (extracted_infos (self (fresh teaser)))
  /\ trace (snd (ContentGenerator_get_vector online (fresh teaser)))
     = trace (fresh teaser) ++ [GooseExtract (link (article (self (fresh teaser))))].
Proof.
  split; [reflexivity|]. split; [reflexivity|].
  exact (get_vector_after_fetch online (fresh teaser) eq_refl).
Defined.
